(** * Annual report link aggregator and downloader

    A shallow embedding of [data/AnnualReport/annual_report.py]: the link
    scraper, the aggregator that merges scraped links into the JSON index,
    and the report downloader, together with the properties the
    specification states about them.

    Python [str] values are modelled as their UTF-8 bytes.  On a text of
    ASCII characters the tests and conversions the program uses ([len],
    [str.isdigit], [int], [str], [str.upper]) are those of the bytes; what
    [str.isdigit] and [int] make of an anchor text with characters outside
    ASCII is read from the environment ([text_year]).

    What the program reads from outside (the clock, the symbol file, the
    answers of the web site, the parse of a page, [strptime], the failure
    of [os.rename]) is a parameter, the record [env].  What it changes
    (the JSON file, the download tree, the log, the standard output, the
    requests it sends) is the record [world].  Paths are POSIX paths.
    [open] and [os.replace] raise on a directory, [os.rename] when the
    environment says so; [os.makedirs] and [os.utime] are taken to
    succeed. *)

From Stdlib Require Import ZArith Ascii String List Lia.
From stdpp Require Import base decidable option list sorting gmap strings pretty.

Local Open Scope Z_scope.
Local Open Scope string_scope.
Local Open Scope list_scope.

(** ** Strings *)

Module Str.

(** [s.split(sep)] for a one-character separator: never empty. *)
Fixpoint split (sep : ascii) (s : string) : list string :=
  match s with
  | EmptyString => [EmptyString]
  | String c r =>
      if Ascii.eqb c sep then EmptyString :: split sep r
      else match split sep r with
           | w :: ws => String c w :: ws
           | [] => [String c EmptyString]
           end
  end.

(** [sep.join(l)]. *)
Fixpoint join (sep : string) (l : list string) : string :=
  match l with
  | [] => EmptyString
  | w :: ws =>
      match ws with
      | [] => w
      | _ :: _ => w +:+ sep +:+ join sep ws
      end
  end.

(** The slice [l[-n:]] for a positive [n]. *)
Definition last_n {A} (n : nat) (l : list A) : list A :=
  drop (length l - n)%nat l.

(** [c in s]. *)
Fixpoint mem (c : ascii) (s : string) : bool :=
  match s with
  | EmptyString => false
  | String d r => Ascii.eqb d c || mem c r
  end.

Definition is_digit (c : ascii) : bool :=
  let n := N_of_ascii c in ((48 <=? n) && (n <=? 57))%N.

Fixpoint all_digits (s : string) : bool :=
  match s with
  | EmptyString => true
  | String c r => is_digit c && all_digits r
  end.

(** [s.isdigit()]: false on the empty string. *)
Definition isdigit (s : string) : bool :=
  match s with
  | EmptyString => false
  | String _ _ => all_digits s
  end.

Fixpoint int_go (acc : Z) (s : string) : Z :=
  match s with
  | EmptyString => acc
  | String c r => int_go (10 * acc + (Z.of_N (N_of_ascii c) - 48)) r
  end.

(** [int(s)] on a string of decimal digits. *)
Definition int (s : string) : Z := int_go 0 s.

(** [str(n)] for an integer. *)
Definition str (n : Z) : string := pretty n.

Definition upper_char (c : ascii) : ascii :=
  let n := N_of_ascii c in
  if ((97 <=? n) && (n <=? 122))%N then ascii_of_N (n - 32) else c.

(** [s.upper()]. *)
Fixpoint upper (s : string) : string :=
  match s with
  | EmptyString => EmptyString
  | String c r => String (upper_char c) (upper r)
  end.

(** [s.replace(c, t)] for a one-character pattern. *)
Fixpoint replace (c : ascii) (t : string) (s : string) : string :=
  match s with
  | EmptyString => EmptyString
  | String d r =>
      if Ascii.eqb d c then t +:+ replace c t r else String d (replace c t r)
  end.

(** [s.endswith(c)] for one character. *)
Fixpoint endswith (c : ascii) (s : string) : bool :=
  match s with
  | EmptyString => false
  | String d r =>
      match r with
      | EmptyString => Ascii.eqb d c
      | String _ _ => endswith c r
      end
  end.

(** [s.isascii()]. *)
Fixpoint isascii (s : string) : bool :=
  match s with
  | EmptyString => true
  | String c r => (N_of_ascii c <? 128)%N && isascii r
  end.

(** The bytes of a list of chunks, one after the other. *)
Fixpoint cat (l : list string) : string :=
  match l with
  | [] => EmptyString
  | chunk :: rest => chunk +:+ cat rest
  end.

(** The character of a decimal digit. *)
Definition digit (d : N) : ascii := ascii_of_N (48 + d).

End Str.

(** ** Paths *)

(** [os.path.basename]: what follows the last slash. *)
Definition basename (p : string) : string :=
  List.last (Str.split "/" p) EmptyString.

(** [os.path.join(a, b)]. *)
Definition path_join (a b : string) : string :=
  match b with
  | String "/" _ => b
  | _ =>
      if String.eqb a EmptyString || Str.endswith "/" a then a +:+ b
      else a +:+ "/" +:+ b
  end.

(** The output name of a report: lines 289-291 of [download_to_save] and
    487-490 of [download_reports] compute it the same way. *)
Definition output_file_name (url : string) : string :=
  let file_name := basename url in
  let file_name_components := Str.split "_" file_name in
  Str.join "_" (Str.last_n 4 file_name_components).

(** ** Year labels *)

Definition REPORT_URL : string := "http://nseindia.com".

(** Lines 251-253 of [scrape_links_for] on a text of ASCII characters,
    where [len], [str.isdigit] and [int] are those of the bytes. *)
Definition year_label (text : string) : string :=
  if (String.length text =? 4)%nat && Str.isdigit text
  then text +:+ "-" +:+ Str.str (Str.int text + 1)
  else text.

(** ** Exceptions and effects *)

Inductive exn :=
| TypeError | ValueError | ConnectionError | OSError | KeyboardInterrupt
| OtherError (name : string).

Inductive outcome (A : Type) :=
| Ok (a : A)
| Raise (e : exn).
Arguments Ok {A} a.
Arguments Raise {A} e.

Inductive level := DEBUG | INFO | WARNING | ERROR.

#[global] Instance level_eq_dec : EqDecision level.
Proof. solve_decision. Defined.

(** One constructor per logging call of the program; the comment gives the
    format string of the call. *)
Inductive msg :=
| ReadingSymbols                           (* Reading the file of NSE Symbols... *)
| SymbolFileNotFound (symbol_file : string) (* Symbol file could not be found: {0} *)
| ReadingJson                              (* Reading the JSON File containing links... *)
| WritingJson                              (* Writing fresh JSON File with latest links... *)
| ScrapingLinks (symbol : string)          (* Scraping links for: {symbol} *)
| NoLinks (symbol : string)                (* {symbol}: No links available. *)
| WouldBeAdded (symbol : string)           (* {symbol} would be added to the JSON File... *)
| Added (symbol year link : string)        (* {symbol} : {year} : Added : {link} *)
| Modified (symbol year link : string)     (* {symbol} : {year} : Modified : {link} *)
| TotalScraped (n : nat)                   (* Total symbols scraped: {0} *)
| TotalAdded (n : nat) (for_ : list string)    (* Total links added: {0} {1} *)
| TotalModified (n : nat) (for_ : list string) (* Total links modified: {0} {1} *)
| AggregationFinished                      (* Aggregation finished... *)
| NoLinksAvailable (symbol : string)       (* {symbol} : No links available *)
| RenamedTo (file_name renamed : string)   (* {0} renamed to {1} *)
| CouldntBeRenamed (output_file : string)  (* {output_file} couldn't be renamed *)
| AlreadyExists (symbol file_name : string) (* {symbol} : Already exists : {file_name} *)
| Downloading (symbol url : string)        (* {symbol} : Downloading : {url} *)
| NoReportAvailable (symbol year : string) (* {symbol} : No report available : {year} *)
| CouldNotBeDownloaded (url : string)      (* Could not be downloaded: {url} *)
| Downloaded (url : string)                (* Downloaded: {url} *)
| DownloadSize (symbol url : string) (bytes : Z) (* {symbol} : {url} : {length:.2f} MiB *)
| TotalSize (bytes : Z)                    (* Total estimated download size: {size:.2f} MiB *)
| DownloadingFinished.                     (* Downloading finished... *)

(** What [download_to_save] writes to standard output. *)
Inductive out_event :=
| ProgressPct (downloaded total : Z)   (* the bar and percentage of total MiB *)
| ProgressBytes (downloaded : Z)       (* Downloaded so far: ... MiB *)
| Newline.

Inductive request :=
| GET (url : string)
| HEAD (url : string).

(** A regular file: its bytes, and the time [os.utime] gave it, if any. *)
Record file := { content : string; utime : option Z }.

(** The state the program acts on.  [json_file] is the content of
    JSON_FILE, [None] when the file does not exist; [files] and [dirs]
    are the regular files and directories of the download tree; [log] and
    [stdout] grow at the end; [net] is the list of HTTP requests issued. *)
Record world := {
  json_file : option (gmap string (gmap string string));
  files : gmap string file;
  dirs : gset string;
  log : list (level * msg);
  stdout : list out_event;
  net : list request
}.

Definition set_json j (w : world) : world :=
  {| json_file := j; files := files w; dirs := dirs w; log := log w;
     stdout := stdout w; net := net w |}.
Definition set_files f (w : world) : world :=
  {| json_file := json_file w; files := f; dirs := dirs w; log := log w;
     stdout := stdout w; net := net w |}.
Definition set_dirs d (w : world) : world :=
  {| json_file := json_file w; files := files w; dirs := d; log := log w;
     stdout := stdout w; net := net w |}.
Definition set_log l (w : world) : world :=
  {| json_file := json_file w; files := files w; dirs := dirs w; log := l;
     stdout := stdout w; net := net w |}.
Definition set_stdout o (w : world) : world :=
  {| json_file := json_file w; files := files w; dirs := dirs w; log := log w;
     stdout := o; net := net w |}.
Definition set_net n (w : world) : world :=
  {| json_file := json_file w; files := files w; dirs := dirs w; log := log w;
     stdout := stdout w; net := n |}.

(** Computations that read and change the world and may raise: what was
    done before an exception stays done. *)
Definition M (A : Type) : Type := world -> outcome A * world.

Definition ret {A} (a : A) : M A := fun w => (Ok a, w).
Definition raise {A} (e : exn) : M A := fun w => (Raise e, w).
Definition bind {A B} (m : M A) (k : A -> M B) : M B :=
  fun w => match m w with
           | (Ok a, w') => k a w'
           | (Raise e, w') => (Raise e, w')
           end.

Declare Scope py_scope.
Delimit Scope py_scope with py.
Notation "x <- m ;; k" := (bind m (fun x => k))
  (at level 100, m at next level, right associativity) : py_scope.
Notation "m ;;; k" := (bind m (fun _ => k))
  (at level 100, right associativity) : py_scope.
Local Open Scope py_scope.

Definition logger (l : level) (m : msg) : M unit :=
  fun w => (Ok tt, set_log (log w ++ [(l, m)]) w).
Definition write (e : out_event) : M unit :=
  fun w => (Ok tt, set_stdout (stdout w ++ [e]) w).
Definition sent (r : request) : M unit :=
  fun w => (Ok tt, set_net (net w ++ [r]) w).

(** [os.path.exists]. *)
Definition path_exists (p : string) (w : world) : bool :=
  bool_decide (is_Some (files w !! p)) || bool_decide (p ∈ dirs w).

Definition log_line (l : level) (m : msg) (w : world) : world :=
  set_log (log w ++ [(l, m)]) w.

(** ** The environment *)

(** An anchor element of a parsed page: [item.text] and [item.get("href")]. *)
Record anchor := { text : string; href : option string }.

(** The integer a header holds: [None] when the header is absent,
    [Some None] when [int] raises on its value. *)
Definition header_int : Type := option (option Z).

(** The response to the streamed GET of a report: [chunks] are what
    [iter_content] yields, and [broken] is the exception that ends the
    transfer after them, if one does. *)
Record response := {
  ok : bool;
  content_length : header_int;
  last_modified : option string;
  chunks : list string;
  broken : option exn
}.

(** What the program reads from outside: the clock, the symbol files, the
    web site, and the parts of the operating system and of the libraries
    that are not the program's own. *)
Record env := {
  (** [datetime.date.today().year] *)
  today_year : Z;
  (** [f.read().splitlines()], [None] for FileNotFoundError *)
  symbol_lines : string -> option (list string);
  (** [BeautifulSoup(requests.get(url).text).find_all("a")] *)
  link_page : string -> outcome (list anchor);
  (** what lines 252-253 make of an anchor text with a character outside
      ASCII: [None] when the text is not four characters that
      [str.isdigit] accepts, [Some None] when it is and [int] raises
      ValueError on it, [Some (Some n)] when [int] reads [n] *)
  text_year : string -> option (option Z);
  (** [requests.get(url, stream=True)] *)
  http_get : string -> outcome response;
  (** [requests.head(url)]: its Content-Length *)
  http_head : string -> outcome header_int;
  (** the timestamp of a Last-Modified value, [None] when [strptime] raises *)
  strptime : string -> option Z;
  (** whether [os.rename] raises OSError *)
  rename_fails : string -> string -> bool
}.

(** The local variables of [aggregate_links]; the index is the dictionary
    the loop updates in place. *)
Record agg := {
  annual_report_links : gmap string (gmap string string);
  symbols_scraped : nat;
  links_added : nat;
  links_modified : nat;
  links_added_for : list string;
  links_modified_for : list string
}.

(** The slice [l[offset:]]. *)
Definition slice_from {A} (offset : Z) (l : list A) : list A :=
  if (offset <? 0)%Z then drop (Z.to_nat (Z.of_nat (length l) + offset)) l
  else drop (Z.to_nat offset) l.

(** The items of a dictionary in the order of its keys: what
    [json.loads(json.dumps(d, sort_keys=True))] iterates over. *)
Definition sorted_items (d : gmap string string) : list (string * string) :=
  merge_sort (fun a b => String.le a.1 b.1) (map_to_list d).

(** Python's truth value of [d.get(k)] for a dictionary of dictionaries
    and for a dictionary of strings. *)
Definition get_links (idx : gmap string (gmap string string)) (symbol : string)
  : option (gmap string string) :=
  match idx !! symbol with
  | Some m => if decide (m = ∅) then None else Some m
  | None => None
  end.

Definition get_url (m : gmap string string) (year : string) : option string :=
  match m !! year with
  | Some u => if decide (u = EmptyString) then None else Some u
  | None => None
  end.

(** [idx[symbol]] where the program has made sure the symbol is a key. *)
Definition links_of (idx : gmap string (gmap string string)) (symbol : string)
  : gmap string string :=
  default ∅ (idx !! symbol).

Definition LINK_URL (symbol : string) : string :=
  "http://nseindia.com/corporates/shldInformation/shldinfo_annualReports.jsp?symbol="
  +:+ symbol.

Definition encode_special_characters (symbol : string) : string :=
  Str.replace "&" "%26" symbol.

(** The directories [os.makedirs] makes sure exist: the path and what
    precedes each of its slashes. *)
Fixpoint dir_prefixes (p : string) : list string :=
  match p with
  | EmptyString => [EmptyString]
  | String c r =>
      let longer := map (String c) (dir_prefixes r) in
      if Ascii.eqb c "/" then EmptyString :: longer else longer
  end.

(** ** The program *)

Section Program.

Variable E : env.

(** *** Reading and writing the local files *)

Definition read_symbol_file (symbol_file : string) : M (list string) :=
  logger DEBUG ReadingSymbols ;;;
  scrips <- match symbol_lines E symbol_file with
            | Some lines => ret lines
            | None => logger ERROR (SymbolFileNotFound symbol_file) ;;; ret []
            end ;;
  ret (filter (fun s => s ≠ EmptyString) scrips).

Definition read_json : M (gmap string (gmap string string)) :=
  logger DEBUG ReadingJson ;;;
  fun w => (Ok (default ∅ (json_file w)), w).

Definition write_json (annual_report_links : gmap string (gmap string string))
  : M unit :=
  logger DEBUG WritingJson ;;;
  fun w => (Ok tt, set_json (Some annual_report_links) w).

(** *** The scraper *)

(** [get_link_page_for] with USE_TEST_DATA and WRITE_TEST_DATA off, as
    the module sets them, followed by the parse of the page. *)
Definition get_link_anchors (symbol : string) : M (list anchor) :=
  let encoded_symbol := encode_special_characters symbol in
  let url := LINK_URL encoded_symbol in
  sent (GET url) ;;;
  match link_page E url with
  | Ok scrapped_links => ret scrapped_links
  | Raise e => raise e
  end.

(** Lines 251-253 of [scrape_links_for]: the year label of an anchor
    text.  A text of four characters that [str.isdigit] accepts and [int]
    does not read raises ValueError. *)
Definition anchor_year (text : string) : outcome string :=
  if Str.isascii text then Ok (year_label text)
  else match text_year E text with
       | None => Ok text
       | Some None => Raise ValueError
       | Some (Some n) => Ok (text +:+ "-" +:+ Str.str (n + 1))
       end.

(** The loop of [scrape_links_for]: after the year label of line 253,
    concatenating REPORT_URL with the [None] of a missing href raises
    TypeError. *)
Fixpoint collect_links (scrapped_links : list anchor)
    (report_links : gmap string string) : outcome (gmap string string) :=
  match scrapped_links with
  | [] => Ok report_links
  | item :: rest =>
      match anchor_year (text item) with
      | Raise e => Raise e
      | Ok year =>
          match href item with
          | None => Raise TypeError
          | Some h =>
              let link := REPORT_URL +:+ h in
              collect_links rest (<[year := link]> report_links)
          end
      end
  end.

(** [scrape_links_for] followed by the [json.loads] of its result: the
    links of the symbol in the order of their year labels. *)
Definition scrape_links_for (symbol : string) : M (list (string * string)) :=
  logger INFO (ScrapingLinks symbol) ;;;
  scrapped_links <- get_link_anchors symbol ;;
  match scrapped_links with
  | [] => logger WARNING (NoLinks symbol)
  | _ :: _ => ret tt
  end ;;;
  match collect_links scrapped_links ∅ with
  | Ok report_links => ret (sorted_items report_links)
  | Raise e => raise e
  end.

(** *** The aggregator *)

Definition get_latest_financial_year : string :=
  let current_year := today_year E in
  Str.str (current_year - 1) +:+ "-" +:+ Str.str current_year.

Definition set_link (symbol year link : string)
    (idx : gmap string (gmap string string)) : gmap string (gmap string string) :=
  <[symbol := <[year := link]> (links_of idx symbol)]> idx.

(** The body of the loop over the years of a scraped symbol (lines
    413-425). *)
Definition merge_link (symbol : string) (st : agg * world)
    (item : string * string) : agg * world :=
  let '(a, w) := st in
  let '(year, link) := item in
  match links_of (annual_report_links a) symbol !! year with
  | None =>
      ({| annual_report_links := set_link symbol year link (annual_report_links a);
          symbols_scraped := symbols_scraped a;
          links_added := S (links_added a);
          links_modified := links_modified a;
          links_added_for := links_added_for a ++ [symbol];
          links_modified_for := links_modified_for a |},
       log_line INFO (Added symbol year link) w)
  | Some old =>
      if decide (old ≠ link) then
        ({| annual_report_links := set_link symbol year link (annual_report_links a);
            symbols_scraped := symbols_scraped a;
            links_added := links_added a;
            links_modified := S (links_modified a);
            links_added_for := links_added_for a;
            links_modified_for := links_modified_for a ++ [symbol] |},
         log_line WARNING (Modified symbol year link) w)
      else (a, w)
  end.

Definition merge_links (symbol : string) (symbol_links : list (string * string))
    (st : agg * world) : agg * world :=
  fold_left (merge_link symbol) symbol_links st.

(** Lines 407-411: count the scrape and make sure the symbol has a
    dictionary. *)
Definition enter_symbol (symbol : string) (st : agg * world) : agg * world :=
  let '(a, w) := st in
  let idx := annual_report_links a in
  let present := bool_decide (is_Some (idx !! symbol)) in
  ({| annual_report_links := if present then idx else <[symbol := ∅]> idx;
      symbols_scraped := S (symbols_scraped a);
      links_added := links_added a;
      links_modified := links_modified a;
      links_added_for := links_added_for a;
      links_modified_for := links_modified_for a |},
   if present then w else log_line DEBUG (WouldBeAdded symbol) w).

(** The condition of line 403. *)
Definition must_scrape (force_update : bool) (latest_financial_year : string)
    (idx : gmap string (gmap string string)) (symbol : string) : bool :=
  force_update ||
  match get_links idx symbol with
  | None => true
  | Some m => negb (bool_decide (is_Some (get_url m latest_financial_year)))
  end.

(** One turn of the loop over the symbols.  The first component is the
    exception that leaves the loop, if any; the local variables and the
    world are those at that point. *)
Definition aggregate_symbol (force_update : bool) (latest_financial_year : string)
    (raw : string) (a : agg) (w : world) : option exn * agg * world :=
  let symbol := Str.upper raw in
  if must_scrape force_update latest_financial_year (annual_report_links a) symbol
  then
    match scrape_links_for symbol w with
    | (Raise e, w') => (Some e, a, w')
    | (Ok symbol_links, w') =>
        let '(a', w'') := merge_links symbol symbol_links (enter_symbol symbol (a, w')) in
        (None, a', w'')
    end
  else (None, a, w).

Fixpoint aggregate_loop (force_update : bool) (latest_financial_year : string)
    (symbols : list string) (a : agg) (w : world) : option exn * agg * world :=
  match symbols with
  | [] => (None, a, w)
  | raw :: rest =>
      match aggregate_symbol force_update latest_financial_year raw a w with
      | (Some e, a', w') => (Some e, a', w')
      | (None, a', w') => aggregate_loop force_update latest_financial_year rest a' w'
      end
  end.

(** The [finally] block of [aggregate_links]. *)
Definition aggregate_finally (a : agg) : M unit :=
  write_json (annual_report_links a) ;;;
  logger INFO (TotalScraped (symbols_scraped a)) ;;;
  logger INFO (TotalAdded (links_added a) (links_added_for a)) ;;;
  logger INFO (TotalModified (links_modified a) (links_modified_for a)).

Definition start_agg (idx : gmap string (gmap string string)) : agg :=
  {| annual_report_links := idx; symbols_scraped := 0; links_added := 0;
     links_modified := 0; links_added_for := []; links_modified_for := [] |}.

Definition aggregate_links (symbol_file : string) (force_update : bool)
    (offset : Z) : M unit :=
  annual_report_links <- read_json ;;
  symbol_list <- read_symbol_file symbol_file ;;
  let latest_financial_year := get_latest_financial_year in
  fun w =>
    let '(raised, a, w1) :=
      aggregate_loop force_update latest_financial_year
        (slice_from offset symbol_list) (start_agg annual_report_links) w in
    match aggregate_finally a w1 with
    | (Raise e, w2) => (Raise e, w2)
    | (Ok _, w2) =>
        match raised with
        | Some e => (Raise e, w2)
        | None => logger INFO AggregationFinished w2
        end
    end.

(** *** The downloader *)

Definition header_value (h : header_int) : M Z :=
  match h with
  | None => ret 0
  | Some None => raise ValueError
  | Some (Some n) => ret n
  end.

(** [os.makedirs(p, exist_ok=True)]. *)
Definition makedirs (p : string) : M unit :=
  if decide (p = EmptyString) then raise OSError
  else fun w =>
    (Ok tt,
     set_dirs (dirs w ∪ list_to_set (filter (fun d => d ≠ EmptyString) (dir_prefixes p))) w).

(** The path names a directory: it is one of the directories, or it ends
    in a slash, which no name of a file does. *)
Definition names_dir (p : string) (w : world) : bool :=
  Str.endswith "/" p || bool_decide (p ∈ dirs w).

(** [open(p, "wb")]: the file exists and is empty; a directory is not
    opened (IsADirectoryError, an OSError). *)
Definition open_wb (p : string) : M unit :=
  fun w =>
    if names_dir p w then (Raise OSError, w)
    else (Ok tt,
          set_files (<[p := {| content := EmptyString; utime := None |}]> (files w)) w).

(** [f.write(chunk)] on the file opened at [p]. *)
Definition file_write (p : string) (chunk : string) : M unit :=
  fun w =>
    (Ok tt,
     set_files (alter (fun f => {| content := content f +:+ chunk; utime := utime f |})
                  p (files w)) w).

(** What a successful [os.replace(src, dst)] or [os.rename(src, dst)]
    does; the program calls them on a [src] that exists. *)
Definition move (src dst : string) (w : world) : world :=
  match files w !! src with
  | Some f => set_files (<[dst := f]> (delete src (files w))) w
  | None =>
      if bool_decide (src ∈ dirs w)
      then set_dirs ({[dst]} ∪ dirs w ∖ {[src]}) w
      else w
  end.

(** [os.replace(src, dst)] of the file [src]: a [dst] that names a
    directory is not replaced (IsADirectoryError or NotADirectoryError,
    both OSError), and [src] stays. *)
Definition os_replace (src dst : string) : M unit :=
  fun w =>
    if names_dir dst w then (Raise OSError, w)
    else (Ok tt, move src dst w).

Definition os_rename (src dst : string) : M unit :=
  if rename_fails E src dst then raise OSError
  else fun w => (Ok tt, move src dst w).

(** [os.utime(p, times=(t, t))]. *)
Definition os_utime (p : string) (t : Z) : M unit :=
  fun w =>
    (Ok tt,
     set_files (alter (fun f => {| content := content f; utime := Some t |}) p (files w)) w).

Definition apply_server_timestamp (output_file last_modified : string) : M unit :=
  match strptime E last_modified with
  | None => raise ValueError
  | Some server_timestamp => os_utime output_file server_timestamp
  end.

(** [try: body / except: handler; raise / else: orelse]. *)
Definition try_except_else {A B} (body : M A) (handler : M unit)
    (orelse : A -> M B) : M B :=
  fun w =>
    match body w with
    | (Ok a, w') => orelse a w'
    | (Raise e, w') =>
        match handler w' with
        | (Ok _, w'') => (Raise e, w'')
        | (Raise e', w'') => (Raise e', w'')
        end
    end.

(** The loop over [r.iter_content] (lines 309-322). *)
Fixpoint write_chunks (download_file : string) (total_length : Z)
    (body : list string) (downloaded_length : Z) : M unit :=
  match body with
  | [] => ret tt
  | chunk :: rest =>
      file_write download_file chunk ;;;
      let downloaded_length := downloaded_length + Z.of_nat (String.length chunk) in
      (if decide (total_length ≠ 0)
       then write (ProgressPct downloaded_length total_length)
       else write (ProgressBytes downloaded_length)) ;;;
      write_chunks download_file total_length rest downloaded_length
  end.

Definition download_to_save (url download_location : string) : M unit :=
  makedirs download_location ;;;
  let output_file := path_join download_location (output_file_name url) in
  let download_file_name := output_file_name url +:+ ".downloading" in
  let download_file := path_join download_location download_file_name in
  sent (GET url) ;;;
  match http_get E url with
  | Raise e => raise e
  | Ok r =>
      if negb (ok r) then logger ERROR (CouldNotBeDownloaded url)
      else
        total_length <- header_value (content_length r) ;;
        try_except_else
          (open_wb download_file ;;;
           write_chunks download_file total_length (chunks r) 0 ;;;
           match broken r with
           | Some e => raise e
           | None => ret tt
           end)
          (write Newline)
          (fun _ =>
             write Newline ;;;
             os_replace download_file output_file ;;;
             match last_modified r with
             | Some (String c s) => apply_server_timestamp output_file (String c s)
             | _ => ret tt
             end ;;;
             logger DEBUG (Downloaded url))
  end.

(** The size is kept as the number of bytes; the program divides it by
    [1024 * 1024] before it logs and adds it. *)
Definition get_download_size (url symbol : string) : M Z :=
  sent (HEAD url) ;;;
  match http_head E url with
  | Raise e => raise e
  | Ok h =>
      total_length <- header_value h ;;
      logger INFO (DownloadSize symbol url total_length) ;;;
      ret total_length
  end.

Definition os_path_exists (p : string) : M bool :=
  fun w => (Ok (path_exists p w), w).

(** One turn of the loop of [download_reports]; the result is the new
    [total_size]. *)
Definition download_symbol (financial_year download_location : string)
    (simulate show_download_size_only rename_existing : bool)
    (annual_report_links : gmap string (gmap string string))
    (raw : string) (total_size : Z) : M Z :=
  let symbol := Str.upper raw in
  match get_links annual_report_links symbol with
  | None => logger WARNING (NoLinksAvailable symbol) ;;; ret total_size
  | Some links =>
      match get_url links financial_year with
      | Some url =>
          let file_name := basename url in
          let output_file := path_join download_location file_name in
          let renamed_file_name := output_file_name url in
          let renamed_file := path_join download_location renamed_file_name in
          if rename_existing then
            there <- os_path_exists output_file ;;
            (if there then
               logger INFO (RenamedTo file_name renamed_file_name) ;;;
               if negb simulate then
                 fun w =>
                   match os_rename output_file renamed_file w with
                   | (Raise OSError, w') =>
                       logger WARNING (CouldntBeRenamed output_file) w'
                   | r => r
                   end
               else ret tt
             else ret tt) ;;;
            ret total_size
          else
            renamed_there <- os_path_exists renamed_file ;;
            let existing_file := if renamed_there then renamed_file_name else file_name in
            output_there <- os_path_exists output_file ;;
            if output_there || renamed_there then
              logger DEBUG (AlreadyExists symbol existing_file) ;;; ret total_size
            else if show_download_size_only then
              size <- get_download_size url symbol ;;
              ret (total_size + size)
            else
              logger INFO (Downloading symbol url) ;;;
              (if negb simulate then download_to_save url download_location
               else ret tt) ;;;
              ret total_size
      | None =>
          logger DEBUG (NoReportAvailable symbol financial_year) ;;; ret total_size
      end
  end.

Fixpoint download_loop (financial_year download_location : string)
    (simulate show_download_size_only rename_existing : bool)
    (annual_report_links : gmap string (gmap string string))
    (symbols : list string) (total_size : Z) : M Z :=
  match symbols with
  | [] => ret total_size
  | raw :: rest =>
      total_size <- download_symbol financial_year download_location simulate
                      show_download_size_only rename_existing annual_report_links
                      raw total_size ;;
      download_loop financial_year download_location simulate
        show_download_size_only rename_existing annual_report_links rest total_size
  end.

Definition download_reports (symbol_file financial_year base_download_folder : string)
    (simulate show_download_size_only rename_existing : bool) (offset : Z) : M unit :=
  let download_location := path_join base_download_folder financial_year in
  annual_report_links <- read_json ;;
  symbol_list <- read_symbol_file symbol_file ;;
  total_size <- download_loop financial_year download_location simulate
                  show_download_size_only rename_existing annual_report_links
                  (slice_from offset symbol_list) 0 ;;
  (if show_download_size_only then logger INFO (TotalSize total_size) else ret tt) ;;;
  logger INFO DownloadingFinished.

End Program.

(** ** Notions of the specification *)

(** The world after [scrape_links_for] has fetched a page with these
    anchors: the request, the log line and the warning of an empty page. *)
Definition scraping (symbol : string) (anchors : list anchor) (w : world) : world :=
  let w1 := set_net (net w ++ [GET (LINK_URL (encode_special_characters symbol))])
              (log_line INFO (ScrapingLinks symbol) w) in
  match anchors with
  | [] => log_line WARNING (NoLinks symbol) w1
  | _ :: _ => w1
  end.


(** What [download_to_save] writes to standard output while it streams
    the chunks of a response. *)
Fixpoint progress_events (total_length : Z) (body : list string)
    (downloaded_length : Z) : list out_event :=
  match body with
  | [] => []
  | chunk :: rest =>
      let downloaded_length := downloaded_length + Z.of_nat (String.length chunk) in
      (if decide (total_length ≠ 0)
       then ProgressPct downloaded_length total_length
       else ProgressBytes downloaded_length)
      :: progress_events total_length rest downloaded_length
  end.

(** The world in which [download_to_save] leaves its [try] block: the
    directory made, the request sent, the chunks in the temporary file. *)
Definition streamed (url download_location : string) (r : response) (w : world)
  : world :=
  let download_file :=
    path_join download_location (output_file_name url +:+ ".downloading") in
  let total_length :=
    match content_length r with Some (Some n) => n | _ => 0 end in
  set_stdout (stdout w ++ progress_events total_length (chunks r) 0 ++ [Newline])
    (set_files (<[download_file := {| content := Str.cat (chunks r); utime := None |}]>
                  (files w))
       (set_net (net w ++ [GET url])
          (set_dirs (dirs w ∪ list_to_set
                       (filter (fun d => d ≠ EmptyString) (dir_prefixes download_location)))
             w))).

(** Nothing was created, renamed or deleted between two worlds. *)
Definition same_disk (w w' : world) : Prop :=
  files w' = files w ∧ dirs w' = dirs w ∧ json_file w' = json_file w.

(** The lines the console shows without [--verbose]: the handler drops
    those of level DEBUG. *)
Definition visible (l : list (level * msg)) : list (level * msg) :=
  filter (fun line => line.1 ≠ DEBUG) l.

(** The lines only a run that is not simulated logs in the turn of a
    symbol: the warning of a failed rename, and what [download_to_save]
    logs. *)
Definition action_lines (extra : list (level * msg)) : Prop :=
  extra = [] ∨
  (∃ output_file, extra = [(WARNING, CouldntBeRenamed output_file)]) ∨
  (∃ url, extra = [(ERROR, CouldNotBeDownloaded url)]) ∨
  (∃ url, extra = [(DEBUG, Downloaded url)]).

(** The file a finished or broken transfer leaves. *)
Definition received (r : response) (t : option Z) : file :=
  {| content := Str.cat (chunks r); utime := t |}.

(** What the merge logs for a scraped link, given the URL the index held
    for its year. *)
Definition merge_line (symbol : string) (old : option string)
    (item : string * string) : option (level * msg) :=
  match old with
  | None => Some (INFO, Added symbol item.1 item.2)
  | Some url =>
      if decide (url ≠ item.2) then Some (WARNING, Modified symbol item.1 item.2)
      else None
  end.

(** The scraped links whose year the index did not have, and those whose
    year it had with another URL. *)
Definition new_links (before : gmap string string) (l : list (string * string))
  : list (string * string) :=
  filter (fun item => before !! item.1 = None) l.

Definition changed_links (before : gmap string string) (l : list (string * string))
  : list (string * string) :=
  filter (fun item => is_Some (before !! item.1) ∧ before !! item.1 ≠ Some item.2) l.

(** The index has a URL for the symbol under the year. *)
Definition has_url (idx : gmap string (gmap string string)) (symbol year : string)
  : Prop :=
  ∃ links url, idx !! symbol = Some links ∧ links !! year = Some url ∧
               url ≠ EmptyString.

(** The text is exactly four decimal digits, and they read [Y]. *)
Definition four_digits (text : string) (Y : Z) : Prop :=
  ∃ a b c d : N,
    (a < 10)%N ∧ (b < 10)%N ∧ (c < 10)%N ∧ (d < 10)%N ∧
    text = String (Str.digit a) (String (Str.digit b)
             (String (Str.digit c) (String (Str.digit d) EmptyString))) ∧
    Y = Z.of_N (1000 * a + 100 * b + 10 * c + d).




(** No component of a file name holds the separator or a slash. *)
Definition plain_components (comps : list string) : Prop :=
  Forall (fun c => Str.mem "_" c = false ∧ Str.mem "/" c = false) comps.

(** The counters of [aggregate_links] agree with its two lists of
    symbols, and the lists hold only symbols of [names]. *)
Definition counts_agree (names : list string) (a : agg) : Prop :=
  links_added a = length (links_added_for a) ∧
  links_modified a = length (links_modified_for a) ∧
  Forall (fun s => s ∈ names) (links_added_for a) ∧
  Forall (fun s => s ∈ names) (links_modified_for a).

(** The request is a HEAD request. *)
Definition is_head (r : request) : Prop :=
  match r with
  | HEAD _ => True
  | GET _ => False
  end.

(** ** A small site *)

(** A symbol file, three link pages and three report files, on which the
    statements below are run. *)
Module Demo.

Definition tcs_2022 : string :=
  "/annual_reports/AR_1234_TCS_2022_2023_05062023.pdf".
Definition tcs_2023 : string :=
  "/annual_reports/AR_5678_TCS_2023_2024_04062024.pdf".
Definition wipro_2023 : string :=
  "/annual_reports/AR_9012_WIPRO_2023_2024_01062024.pdf".

Definition page (url : string) : outcome (list anchor) :=
  if String.eqb url (LINK_URL "TCS") then
    Ok [ {| text := "2022"; href := Some tcs_2022 |};
         {| text := "Annual Report"; href := Some "/annual_reports/other.zip" |};
         {| text := "2023"; href := Some tcs_2023 |} ]
  else if String.eqb url (LINK_URL "WIPRO") then
    Ok [ {| text := "2023"; href := Some wipro_2023 |} ]
  else if String.eqb url (LINK_URL "INFY") then
    Ok [ {| text := "2023"; href := Some "/annual_reports/AR_1_INFY_2023_2024_x.pdf" |};
         {| text := "2022"; href := None |} ]
  else if String.eqb url (LINK_URL "M%26M") then Ok []
  else Raise ConnectionError.

Definition broken_response : response :=
  {| ok := true; content_length := None; last_modified := None;
     chunks := ["%PD"]; broken := Some ConnectionError |}.

Definition refused_response : response :=
  {| ok := false; content_length := None; last_modified := None;
     chunks := []; broken := None |}.

Definition stamp : string := "Tue, 04 Jun 2024 10:00:00 GMT".

(** The anchor texts outside ASCII that the pages below use: four
    superscript twos pass [str.isdigit] and [int] raises on them; four
    fullwidth digits are read by [int]. *)
Definition years (text : string) : option (option Z) :=
  if String.eqb text "²²²²" then Some None
  else if String.eqb text "２０２３" then Some (Some 2023)
  else None.

Definition get (url : string) : outcome response :=
  if String.eqb url (REPORT_URL +:+ tcs_2023) then
    Ok {| ok := true; content_length := Some (Some 8);
          last_modified := Some stamp;
          chunks := ["%PDF"; "-1.7"]; broken := None |}
  else if String.eqb url (REPORT_URL +:+ tcs_2022) then Ok broken_response
  else Ok refused_response.

Definition site : env :=
  {| today_year := 2024;
     symbol_lines := fun f =>
       if String.eqb f "download_symbols.txt"
       then Some ["tcs"; EmptyString; "WIPRO"]
       else if String.eqb f "all_symbols.txt"
       then Some ["TCS"; "INFY"; "WIPRO"]
       else None;
     link_page := page;
     text_year := years;
     http_get := get;
     http_head := fun _ => Ok (Some (Some 8));
     strptime := fun s => if String.eqb s stamp then Some 1717495200 else None;
     rename_fails := fun _ _ => false |}.

(** Nothing on disk, nothing logged. *)
Definition fresh : world :=
  {| json_file := None; files := ∅; dirs := ∅; log := []; stdout := []; net := [] |}.

(** An index in which TCS has an older link for 2022-2023 and the link
    of the site for 2023-2024, and WIPRO the link of the site. *)
Definition index : gmap string (gmap string string) :=
  <["TCS" := <["2022-2023" := "http://nseindia.com/annual_reports/old.pdf"]>
               (<["2023-2024" := REPORT_URL +:+ tcs_2023]> ∅)]>
    (<["WIPRO" := <["2023-2024" := REPORT_URL +:+ wipro_2023]> ∅]> ∅).

(** The index after the site has been scraped for TCS and WIPRO. *)
Definition scraped : gmap string (gmap string string) :=
  <["TCS" := <["2022-2023" := REPORT_URL +:+ tcs_2022]>
               (<["2023-2024" := REPORT_URL +:+ tcs_2023]>
                  (<["Annual Report" := REPORT_URL +:+ "/annual_reports/other.zip"]> ∅))]>
    (<["WIPRO" := <["2023-2024" := REPORT_URL +:+ wipro_2023]> ∅]> ∅).

Definition indexed : world :=
  {| json_file := Some index; files := ∅; dirs := ∅; log := []; stdout := [];
     net := [] |}.

End Demo.

(** The same site when its report server answers every GET with a
    Content-Length that is not a number. *)
Definition garbled_site : env :=
  {| today_year := today_year Demo.site;
     symbol_lines := symbol_lines Demo.site;
     link_page := link_page Demo.site;
     text_year := text_year Demo.site;
     http_get := fun _ =>
       Ok {| ok := true; content_length := Some None; last_modified := None;
             chunks := ["%PDF"]; broken := None |};
     http_head := http_head Demo.site;
     strptime := strptime Demo.site;
     rename_fails := rename_fails Demo.site |}.



(** * Properties *)

(** ** Strings and paths *)

Module StrFacts.
Import Str.

Lemma app_nil (b : string) : EmptyString +:+ b = b.
Proof. reflexivity. Qed.

Lemma app_cons (c : ascii) (a b : string) :
  String c a +:+ b = String c (a +:+ b).
Proof. reflexivity. Qed.

Lemma app_assoc (a b c : string) : (a +:+ b) +:+ c = a +:+ b +:+ c.
Proof. induction a as [|x a IH]; [done|]. by rewrite !app_cons, IH. Qed.

Lemma length_app (a b : string) :
  String.length (a +:+ b) = (String.length a + String.length b)%nat.
Proof. induction a as [|x a IH]; [done|]. rewrite app_cons. simpl. by rewrite IH. Qed.

Lemma mem_cons (c d : ascii) (r : string) :
  mem c (String d r) = Ascii.eqb d c || mem c r.
Proof. reflexivity. Qed.

Lemma mem_app (c : ascii) (a b : string) :
  mem c (a +:+ b) = mem c a || mem c b.
Proof.
  induction a as [|x a IH]; [done|].
  rewrite app_cons. simpl. rewrite IH. by rewrite orb_assoc.
Qed.

Lemma split_not_nil (sep : ascii) (s : string) : split sep s ≠ [].
Proof.
  induction s as [|c r IH]; simpl; [done|].
  destruct (Ascii.eqb c sep); [done|]. by destruct (split sep r).
Qed.

Lemma split_app (sep : ascii) (a b : string) :
  split sep (a +:+ String sep b) = split sep a ++ split sep b.
Proof.
  induction a as [|c r IH].
  - rewrite app_nil. simpl. by rewrite Ascii.eqb_refl.
  - rewrite app_cons. simpl. rewrite IH.
    destruct (Ascii.eqb c sep); [done|].
    pose proof (split_not_nil sep r) as Hne.
    by destruct (split sep r).
Qed.

Lemma split_no_sep (sep : ascii) (a : string) :
  mem sep a = false → split sep a = [a].
Proof.
  induction a as [|c r IH]; simpl; [done|].
  intros [Hc Hr]%orb_false_elim. rewrite Hc. by rewrite IH.
Qed.

Lemma split_join (sep : ascii) (ws : list string) :
  ws ≠ [] → Forall (fun w => mem sep w = false) ws →
  split sep (join (String sep EmptyString) ws) = ws.
Proof.
  induction ws as [|w ws IH]; [done|]. intros _ Hall.
  apply Forall_cons in Hall as [Hw Hws].
  destruct ws as [|w' ws].
  - simpl. by apply split_no_sep.
  - change (join (String sep EmptyString) (w :: w' :: ws))
      with (w +:+ String sep EmptyString +:+ join (String sep EmptyString) (w' :: ws)).
    rewrite app_cons, app_nil, split_app, IH by done.
    by rewrite split_no_sep.
Qed.

Lemma mem_join (c sep : ascii) (ws : list string) :
  c ≠ sep → Forall (fun w => mem c w = false) ws →
  mem c (join (String sep EmptyString) ws) = false.
Proof.
  intros Hne. induction ws as [|w ws IH]; [done|]. intros Hall.
  apply Forall_cons in Hall as [Hw Hws].
  destruct ws as [|w' ws]; [done|].
  change (join (String sep EmptyString) (w :: w' :: ws))
    with (w +:+ String sep EmptyString +:+ join (String sep EmptyString) (w' :: ws)).
  rewrite mem_app, Hw, app_cons, app_nil, mem_cons, IH by done.
  rewrite orb_false_r. apply Ascii.eqb_neq. congruence.
Qed.

Lemma basename_app (dir name : string) :
  mem "/" name = false → basename (dir +:+ "/" +:+ name) = name.
Proof.
  intros Hname. unfold basename.
  rewrite app_cons, app_nil, split_app, (split_no_sep _ name) by done.
  apply List.last_last.
Qed.

End StrFacts.

Section YearLabel.
Import Str StrFacts.

Lemma N_of_digit (d : N) : (d < 10)%N → N_of_ascii (digit d) = (48 + d)%N.
Proof. intros Hd. unfold digit. apply N_ascii_embedding. lia. Qed.

Lemma is_digit_digit (d : N) : (d < 10)%N → is_digit (digit d) = true.
Proof.
  intros Hd. unfold is_digit. rewrite N_of_digit by done.
  apply andb_true_intro. split; apply N.leb_le; lia.
Qed.


Lemma year_label_four_digits (text : string) (Y : Z) :
  four_digits text Y → year_label text = text +:+ "-" +:+ str (Y + 1).
Proof.
  intros (a & b & c & d & Ha & Hb & Hc & Hd & -> & ->).
  unfold year_label, isdigit. cbn [String.length all_digits].
  rewrite !is_digit_digit by done. cbn [Nat.eqb andb].
  do 3 f_equal. unfold int. cbn [int_go].
  rewrite !N_of_digit by done. lia.
Qed.


End YearLabel.

(** ** Strings, names and labels *)

Section MoreStrings.
Import Str StrFacts.

Lemma replace_clean (c : ascii) (t s : string) :
  mem c t = false → mem c (replace c t s) = false.
Proof.
  intros Ht. induction s as [|d r IH]; [done|]. simpl.
  destruct (Ascii.eqb d c) eqn:Hd.
  - by rewrite mem_app, Ht, IH.
  - by rewrite mem_cons, Hd, IH.
Qed.

Lemma replace_absent (c : ascii) (t s : string) :
  mem c s = false → replace c t s = s.
Proof.
  induction s as [|d r IH]; [done|]. simpl.
  intros [Hd Hr]%orb_false_elim. rewrite Hd. by rewrite IH.
Qed.

Lemma replace_app (c : ascii) (t a b : string) :
  replace c t (a +:+ b) = replace c t a +:+ replace c t b.
Proof.
  induction a as [|d r IH]; [done|].
  rewrite app_cons. cbn [replace]. rewrite IH.
  destruct (Ascii.eqb d c); [by rewrite app_assoc|by rewrite app_cons].
Qed.

Lemma join_split (sep : ascii) (s : string) :
  join (String sep EmptyString) (split sep s) = s.
Proof.
  induction s as [|c r IH]; [done|]. simpl.
  pose proof (split_not_nil sep r) as Hne.
  destruct (Ascii.eqb c sep) eqn:Hc.
  - apply Ascii.eqb_eq in Hc as ->.
    destruct (split sep r) as [|w ws] eqn:Hs; [done|].
    change (join (String sep EmptyString) (EmptyString :: w :: ws))
      with (EmptyString +:+ String sep EmptyString
            +:+ join (String sep EmptyString) (w :: ws)).
    by rewrite IH.
  - destruct (split sep r) as [|w ws] eqn:Hs; [done|].
    rewrite <- IH. by destruct ws.
Qed.

Lemma split_components (sep : ascii) (s : string) :
  Forall (fun w => mem sep w = false) (split sep s).
Proof.
  induction s as [|c r IH]; simpl; [by repeat constructor|].
  destruct (Ascii.eqb c sep) eqn:Hc; [by constructor|].
  pose proof (split_not_nil sep r) as Hne.
  destruct (split sep r) as [|w ws]; [done|].
  apply Forall_cons in IH as [Hw Hws]. constructor; [|done].
  by rewrite mem_cons, Hc, Hw.
Qed.

Lemma split_keeps_absent (c sep : ascii) (s : string) :
  mem c s = false → Forall (fun w => mem c w = false) (split sep s).
Proof.
  induction s as [|d r IH]; simpl; [by repeat constructor|].
  intros [Hd Hr]%orb_false_elim. specialize (IH Hr).
  destruct (Ascii.eqb d sep); [by constructor|].
  pose proof (split_not_nil sep r) as Hne.
  destruct (split sep r) as [|w ws]; [done|].
  apply Forall_cons in IH as [Hw Hws]. constructor; [|done].
  by rewrite mem_cons, Hd, Hw.
Qed.

Lemma basename_no_slash (p : string) : mem "/" (basename p) = false.
Proof.
  unfold basename. pose proof (split_components "/" p) as Hall.
  pose proof (split_not_nil "/" p) as Hne.
  destruct (split "/" p) as [|w ws] using rev_ind; [done|].
  rewrite List.last_last. apply Forall_app in Hall as [_ Hall].
  apply Forall_cons in Hall as [Hw _]. exact Hw.
Qed.

Lemma pretty_char_digit (d : N) : (d < 10)%N → pretty_N_char d = digit d.
Proof.
  intros Hd. destruct d as [|p]; [done|].
  do 4 (destruct p as [p|p|]; try done; try lia).
Qed.

(** [str] of a number of four digits is its four digits. *)
Lemma str_four_digits (n : Z) : (1000 ≤ n ≤ 9999)%Z → four_digits (str n) n.
Proof.
  intros Hn. destruct n as [|p|p]; [lia| |lia].
  set (x := N.pos p). assert (1000 ≤ x ≤ 9999)%N as Hx by (unfold x; lia).
  exists (x / 1000)%N, (x / 100 mod 10)%N, (x / 10 mod 10)%N, (x mod 10)%N.
  assert (x / 10 / 10 / 10 / 10 = 0)%N as H0.
  { rewrite !N.Div0.div_div. apply N.div_small. lia. }
  assert (x / 1000 < 10)%N by (apply N.Div0.div_lt_upper_bound; lia).
  repeat split; try (apply N.mod_lt; lia); try done.
  - change (str (Z.pos p)) with (pretty x). unfold pretty, pretty_N.
    rewrite decide_False by lia.
    rewrite pretty_N_go_step by lia.
    rewrite pretty_N_go_step by (apply N.div_str_pos; lia).
    rewrite pretty_N_go_step
      by (rewrite N.Div0.div_div; apply N.div_str_pos; lia).
    rewrite pretty_N_go_step
      by (rewrite !N.Div0.div_div; apply N.div_str_pos; lia).
    rewrite H0, pretty_N_go_0.
    rewrite !pretty_char_digit by (apply N.mod_lt; lia).
    rewrite !N.Div0.div_div. change (10 * 10)%N with 100%N.
    change (100 * 10)%N with 1000%N.
    change (10 * 100)%N with 1000%N.
    by rewrite (N.mod_small (x / 1000) 10).
  - change (Z.pos p) with (Z.of_N x). f_equal.
    pose proof (N.Div0.div_mod x 10) as D1.
    pose proof (N.Div0.div_mod (x / 10) 10) as D2.
    pose proof (N.Div0.div_mod (x / 10 / 10) 10) as D3.
    assert (x / 10 / 10 = x / 100)%N as E2 by by rewrite N.Div0.div_div.
    assert (x / 10 / 10 / 10 = x / 1000)%N as E3 by by rewrite !N.Div0.div_div.
    rewrite E2 in D2, D3, E3. rewrite E3 in D3. lia.
Qed.






End MoreStrings.

(** ** The scraper *)

Section Scraper.

Variable E : env.

Lemma elem_of_sorted_items (d : gmap string string) (y u : string) :
  (y, u) ∈ sorted_items d ↔ d !! y = Some u.
Proof.
  unfold sorted_items. rewrite merge_sort_Permutation.
  apply elem_of_map_to_list.
Qed.

Lemma NoDup_sorted_items (d : gmap string string) :
  NoDup (sorted_items d).*1.
Proof.
  unfold sorted_items. rewrite merge_sort_Permutation.
  apply NoDup_fst_map_to_list.
Qed.

Lemma isascii_four_digits (text : string) (Y : Z) :
  four_digits text Y → Str.isascii text = true.
Proof.
  intros (a & b & c & d & Ha & Hb & Hc & Hd & -> & _). simpl.
  rewrite !N_of_digit by done.
  by repeat (rewrite (proj2 (N.ltb_lt _ _)) by lia).
Qed.

Lemma anchor_year_ascii (text : string) :
  Str.isascii text = true → anchor_year E text = Ok (year_label text).
Proof. intros Hascii. unfold anchor_year. by rewrite Hascii. Qed.

Lemma collect_links_frame (items : list anchor) (m0 m : gmap string string)
    (y : string) :
  collect_links E items m0 = Ok m →
  Forall (fun later => anchor_year E (text later) ≠ Ok y) items →
  m !! y = m0 !! y.
Proof.
  revert m0. induction items as [|item items IH]; intros m0 Hrun Hall.
  - by simplify_eq/=.
  - apply Forall_cons in Hall as [Hne Hall]. simpl in Hrun.
    destruct (anchor_year E (text item)) as [y'|]; [|done].
    destruct (href item) as [h|]; [|done].
    rewrite (IH _ Hrun Hall). apply lookup_insert_ne. congruence.
Qed.

Lemma collect_links_stored (pre post : list anchor) (item : anchor)
    (m0 m : gmap string string) :
  collect_links E (pre ++ item :: post) m0 = Ok m →
  ∃ y h, anchor_year E (text item) = Ok y ∧ href item = Some h ∧
         (Forall (fun later => anchor_year E (text later) ≠ Ok y) post →
          m !! y = Some (REPORT_URL +:+ h)).
Proof.
  revert m0. induction pre as [|p pre IH]; intros m0 Hrun; simpl in Hrun.
  - destruct (anchor_year E (text item)) as [y|]; [|done].
    destruct (href item) as [h|]; [|done]. exists y, h. do 2 (split; [done|]).
    intros Hpost.
    rewrite (collect_links_frame _ _ _ _ Hrun Hpost). apply lookup_insert_eq.
  - destruct (anchor_year E (text p)); [|done].
    destruct (href p); [|done]. by eapply IH.
Qed.

Lemma collect_links_origin (items : list anchor) (m0 m : gmap string string)
    (y u : string) :
  collect_links E items m0 = Ok m → m !! y = Some u →
  m0 !! y = Some u ∨
  ∃ item h, item ∈ items ∧ href item = Some h ∧
            anchor_year E (text item) = Ok y ∧ u = REPORT_URL +:+ h.
Proof.
  revert m0. induction items as [|item items IH]; intros m0 Hrun Hy; simpl in Hrun.
  - left. by simplify_eq.
  - destruct (anchor_year E (text item)) as [y'|] eqn:Hyear; [|done].
    destruct (href item) as [h|] eqn:Hh; [|done].
    destruct (IH _ Hrun Hy) as [Hin|(it & h' & ? & ? & ? & ?)].
    + destruct (decide (y' = y)) as [<-|Hne].
      * rewrite lookup_insert_eq in Hin. simplify_eq.
        right. exists item, h. split; [left|done].
      * rewrite lookup_insert_ne in Hin by done. by left.
    + right. exists it, h'. split; [by right|done].
Qed.




Lemma scrape_links_for_eq (symbol : string) (anchors : list anchor) (w : world) :
  link_page E (LINK_URL (encode_special_characters symbol)) = Ok anchors →
  scrape_links_for E symbol w =
    (match collect_links E anchors ∅ with
     | Ok report_links => Ok (sorted_items report_links)
     | Raise e => Raise e
     end, scraping symbol anchors w).
Proof.
  intros Hpage. unfold scrape_links_for, get_link_anchors, bind, logger, sent.
  simpl. rewrite Hpage. unfold ret, scraping, log_line.
  generalize (collect_links E anchors ∅). intros c.
  by destruct anchors, c.
Qed.

End Scraper.

(** ** File names *)

(** C6. The output file name of a report is the last four of the
    underscore-separated components of the basename of its URL, joined by
    underscores: for a basename made of the components [comps] it is
    [join "_" (last_n 4 comps)], and for [A_B_C_D_E.pdf] it is
    [B_C_D_E.pdf]. *)
Theorem canonical_file_name (dir : string) (comps : list string) :
  comps ≠ [] → plain_components comps →
  let url := dir +:+ "/" +:+ Str.join "_" comps in
  Str.split "_" (basename url) = comps ∧
  output_file_name url = Str.join "_" (Str.last_n 4 comps) ∧
  ∀ A B C D E : string,
    comps = [A; B; C; D; E +:+ ".pdf"] →
    basename url = A +:+ "_" +:+ B +:+ "_" +:+ C +:+ "_" +:+ D +:+ "_" +:+ E +:+ ".pdf" ∧
    output_file_name url = B +:+ "_" +:+ C +:+ "_" +:+ D +:+ "_" +:+ E +:+ ".pdf".
Proof.
  intros Hne Hplain url.
  assert (basename url = Str.join "_" comps) as Hbase.
  { apply StrFacts.basename_app, StrFacts.mem_join; [done|].
    eapply Forall_impl; [exact Hplain|]. by intros c [_ ?]. }
  assert (Str.split "_" (basename url) = comps) as Hsplit.
  { rewrite Hbase. apply StrFacts.split_join; [done|].
    eapply Forall_impl; [exact Hplain|]. by intros c [? _]. }
  split; [done|]. split.
  - unfold output_file_name. cbv zeta. by rewrite Hsplit.
  - intros A B C D E ->. split; [by rewrite Hbase|].
    unfold output_file_name. cbv zeta. by rewrite Hsplit.
Qed.

Lemma canonical_file_name_witness :
  output_file_name "http://nseindia.com/annual_reports/AR_1234_TCS_2023_2024.pdf"
  = "1234_TCS_2023_2024.pdf".
Proof.
  pose proof (canonical_file_name "http://nseindia.com/annual_reports"
                ["AR"; "1234"; "TCS"; "2023"; "2024.pdf"]) as H.
  destruct H as (_ & H & _).
  - discriminate.
  - repeat constructor.
  - exact H.
Defined.

(** ** Year labels of scraped links *)






(** ** Anchors without a link *)


(** The page of [M&M], fetched under the encoded symbol, has no anchor:
    the scrape returns no link and logs the warning. *)
Example scrape_empty_page :
  scrape_links_for Demo.site "M&M" Demo.fresh
  = (Ok [],
     set_net [GET (LINK_URL "M%26M")]
       (set_log [(INFO, ScrapingLinks "M&M"); (WARNING, NoLinks "M&M")] Demo.fresh)).
Proof. reflexivity. Qed.


(** ** The aggregator *)

Section Aggregator.

Implicit Types (idx : gmap string (gmap string string)) (a : agg) (w : world).

Lemma links_of_set_link idx symbol year link :
  links_of (set_link symbol year link idx) symbol
  = <[year := link]> (links_of idx symbol).
Proof. unfold links_of at 1, set_link. by rewrite lookup_insert_eq. Qed.

Lemma lookup_set_link_ne idx symbol year link s :
  s ≠ symbol → set_link symbol year link idx !! s = idx !! s.
Proof. intros Hne. unfold set_link. by rewrite lookup_insert_ne. Qed.

(** One scraped link: the entry of the symbol gets the link, the entries
    of the other symbols stay, and the log and the counters grow by the
    line of the case. *)
Lemma merge_link_spec symbol a w year link :
  let before := links_of (annual_report_links a) symbol in
  let '(a1, w1) := merge_link symbol (a, w) (year, link) in
  links_of (annual_report_links a1) symbol = <[year := link]> before ∧
  (∀ s, s ≠ symbol → annual_report_links a1 !! s = annual_report_links a !! s) ∧
  (is_Some (annual_report_links a !! symbol) →
   is_Some (annual_report_links a1 !! symbol)) ∧
  log w1 = log w ++ option_list (merge_line symbol (before !! year) (year, link)) ∧
  links_added a1
    = (links_added a + length (new_links before [(year, link)]))%nat ∧
  links_modified a1
    = (links_modified a + length (changed_links before [(year, link)]))%nat.
Proof.
  intros before. unfold merge_link, new_links, changed_links.
  rewrite !filter_cons, !filter_nil. fold before.
  destruct (before !! year) as [old|] eqn:Hold.
  - destruct (decide (old ≠ link)) as [Hne|Heq%dec_stable];
      cbn -[links_of]; rewrite ?Hold.
    + rewrite (decide_True (P := is_Some (Some old) ∧ Some old ≠ Some link))
        by (split; [by eexists|congruence]).
      rewrite links_of_set_link. fold before.
      rewrite decide_True by done. rewrite decide_False by done.
      repeat split; try done; try (simpl; lia).
      * intros s Hs. by apply lookup_set_link_ne.
      * intros _. unfold set_link. rewrite lookup_insert_eq. by eexists.
    + subst old. rewrite insert_id by done.
      rewrite (decide_False (P := is_Some (Some link) ∧ Some link ≠ Some link))
        by (intros [_ ?]; done).
      rewrite decide_False by (intros ?; done). rewrite decide_False by done.
      rewrite app_nil_r. repeat split; try done; simpl; lia.
  - cbn -[links_of]. rewrite ?Hold.
    rewrite decide_True by done.
    rewrite decide_False by (intros [[? ?] _]; done).
    rewrite links_of_set_link. fold before.
    repeat split; try done; try (simpl; lia).
    + intros s Hs. by apply lookup_set_link_ne.
    + intros _. unfold set_link. rewrite lookup_insert_eq. by eexists.
Qed.

Lemma new_links_cons (before : gmap string string) item l :
  length (new_links before (item :: l))
  = (length (new_links before [item]) + length (new_links before l))%nat.
Proof.
  unfold new_links. rewrite !filter_cons, filter_nil.
  by destruct (decide (before !! item.1 = None)).
Qed.

Lemma changed_links_cons (before : gmap string string) item l :
  length (changed_links before (item :: l))
  = (length (changed_links before [item]) + length (changed_links before l))%nat.
Proof.
  unfold changed_links. rewrite !filter_cons, filter_nil.
  by destruct (decide (is_Some (before !! item.1) ∧ before !! item.1 ≠ Some item.2)).
Qed.

Lemma new_links_agree (m1 m2 : gmap string string) item :
  m1 !! item.1 = m2 !! item.1 → new_links m1 [item] = new_links m2 [item].
Proof. intros H. unfold new_links. rewrite !filter_cons, !filter_nil. by rewrite H. Qed.

Lemma changed_links_agree (m1 m2 : gmap string string) item :
  m1 !! item.1 = m2 !! item.1 → changed_links m1 [item] = changed_links m2 [item].
Proof. intros H. unfold changed_links. rewrite !filter_cons, !filter_nil. by rewrite H. Qed.

(** The loop over the scraped links of a symbol, whose years are distinct:
    [before] is the entry of the symbol when the loop starts. *)
Lemma merge_links_spec symbol (before : gmap string string) l : ∀ a w,
  NoDup l.*1 →
  (∀ item, item ∈ l →
     links_of (annual_report_links a) symbol !! item.1 = before !! item.1) →
  let '(a', w') := merge_links symbol l (a, w) in
  (∀ y u, (y, u) ∈ l → links_of (annual_report_links a') symbol !! y = Some u) ∧
  (∀ y, y ∉ l.*1 →
     links_of (annual_report_links a') symbol !! y
     = links_of (annual_report_links a) symbol !! y) ∧
  (∀ s, s ≠ symbol → annual_report_links a' !! s = annual_report_links a !! s) ∧
  (is_Some (annual_report_links a !! symbol) →
   is_Some (annual_report_links a' !! symbol)) ∧
  log w' = log w ++ omap (fun item => merge_line symbol (before !! item.1) item) l ∧
  links_added a' = (links_added a + length (new_links before l))%nat ∧
  links_modified a' = (links_modified a + length (changed_links before l))%nat.
Proof.
  induction l as [|[y u] l IH]; intros a w Hnd Hag.
  - simpl. rewrite app_nil_r. repeat split; try done; try (simpl; lia).
    intros y u Hin. by apply elem_of_nil in Hin.
  - change (merge_links symbol ((y, u) :: l) (a, w))
      with (merge_links symbol l (merge_link symbol (a, w) (y, u))).
    pose proof (merge_link_spec symbol a w y u) as Hstep. cbv zeta in Hstep.
    destruct (merge_link symbol (a, w) (y, u)) as [a1 w1].
    destruct Hstep as (H1 & H2 & H3 & H4 & H5 & H6).
    rewrite fmap_cons in Hnd. apply NoDup_cons in Hnd as [Hy Hnd]. simpl in Hy.
    assert (links_of (annual_report_links a) symbol !! y = before !! y) as Hhead.
    { apply (Hag (y, u)). left. }
    assert (∀ item, item ∈ l → item.1 ≠ y) as Hother.
    { intros item Hin Heq. apply Hy. rewrite <- Heq. by apply (list_elem_of_fmap_2 fst). }
    specialize (IH a1 w1 Hnd). 
    destruct (merge_links symbol l (a1, w1)) as [a' w'].
    destruct IH as (I1 & I2 & I3 & I4 & I5 & I6 & I7).
    { intros item Hin. rewrite H1, lookup_insert_ne by (symmetry; by apply Hother).
      apply Hag. by right. }
    rewrite (new_links_agree _ before (y, u)) in H5 by done.
    rewrite (changed_links_agree _ before (y, u)) in H6 by done.
    rewrite Hhead in H4. cbv beta iota.
    repeat split.
    + intros y' u' [Heq|Hin]%elem_of_cons.
      * simplify_eq. rewrite I2 by done. rewrite H1. apply lookup_insert_eq.
      * by apply I1.
    + intros y' Hy'. rewrite fmap_cons in Hy'. apply not_elem_of_cons in Hy' as [Hne Hy'].
      rewrite I2 by done. rewrite H1. by apply lookup_insert_ne.
    + intros s Hs. rewrite I3 by done. by apply H2.
    + intros Hs. by apply I4, H3.
    + rewrite I5, H4. simpl omap. rewrite <- app_assoc. f_equal.
      by destruct (merge_line symbol (before !! y) (y, u)).
    + rewrite I6, H5, (new_links_cons before (y, u) l). lia.
    + rewrite I7, H6, (changed_links_cons before (y, u) l). lia.
Qed.

Lemma merge_line_added symbol (before : gmap string string)
    (l : list (string * string)) year link :
  (INFO, Added symbol year link)
    ∈ omap (fun item => merge_line symbol (before !! item.1) item) l
  ↔ (year, link) ∈ l ∧ before !! year = None.
Proof.
  rewrite list_elem_of_omap. split.
  - intros ([y u] & Hin & Hline). unfold merge_line in Hline. simpl in Hline.
    destruct (before !! y) eqn:Hy; [by case_decide|]. by simplify_eq.
  - intros [Hin Hnone]. exists (year, link). split; [done|].
    unfold merge_line. simpl. by rewrite Hnone.
Qed.

Lemma merge_line_modified symbol (before : gmap string string)
    (l : list (string * string)) year link :
  (WARNING, Modified symbol year link)
    ∈ omap (fun item => merge_line symbol (before !! item.1) item) l
  ↔ (year, link) ∈ l ∧ ∃ old, before !! year = Some old ∧ old ≠ link.
Proof.
  rewrite list_elem_of_omap. split.
  - intros ([y u] & Hin & Hline). unfold merge_line in Hline. simpl in Hline.
    destruct (before !! y) as [old|] eqn:Hy; [|done].
    case_decide; [|done]. simplify_eq. split; [done|]. by exists old.
  - intros [Hin (old & Hold & Hne)]. exists (year, link). split; [done|].
    unfold merge_line. simpl. rewrite Hold. by rewrite decide_True.
Qed.

Lemma enter_symbol_spec symbol a w :
  let '(a0, w0) := enter_symbol symbol (a, w) in
  links_of (annual_report_links a0) symbol = links_of (annual_report_links a) symbol ∧
  links_added a0 = links_added a ∧
  links_modified a0 = links_modified a ∧
  symbols_scraped a0 = S (symbols_scraped a) ∧
  log w0 = log w ++ (if bool_decide (is_Some (annual_report_links a !! symbol))
                     then [] else [(DEBUG, WouldBeAdded symbol)]).
Proof.
  unfold enter_symbol. cbn -[links_of].
  destruct (bool_decide (is_Some (annual_report_links a !! symbol))) eqn:Hin.
  - rewrite app_nil_r. by repeat split.
  - apply bool_decide_eq_false in Hin.
    repeat split; try done.
    unfold links_of. rewrite lookup_insert_eq.
    destruct (annual_report_links a !! symbol) eqn:Hl; [|done].
    exfalso. apply Hin. by eexists.
Qed.

Lemma scrape_links_for_NoDup (E : env) symbol w l w1 :
  scrape_links_for E symbol w = (Ok l, w1) → NoDup l.*1.
Proof.
  destruct (link_page E (LINK_URL (encode_special_characters symbol)))
    as [anchors|e] eqn:Hpage.
  - rewrite (scrape_links_for_eq E _ _ _ Hpage).
    destruct (collect_links E anchors ∅); [|done].
    intros [= <- _]. apply NoDup_sorted_items.
  - unfold scrape_links_for, get_link_anchors, bind, logger, sent. simpl.
    by rewrite Hpage.
Qed.

Lemma must_scrape_has_url fy idx symbol :
  has_url idx symbol fy → must_scrape false fy idx symbol = false.
Proof.
  intros (links & url & Hs & Hy & Hne). unfold must_scrape, get_links, get_url.
  rewrite Hs. simpl.
  destruct (decide (links = ∅)) as [->|_]; [by rewrite lookup_empty in Hy|].
  rewrite Hy. rewrite decide_False by done.
  rewrite bool_decide_eq_true_2; [done|by eexists].
Qed.

Lemma aggregate_loop_skip (E : env) fy symbols a w :
  (∀ raw, raw ∈ symbols → has_url (annual_report_links a) (Str.upper raw) fy) →
  aggregate_loop E false fy symbols a w = (None, a, w).
Proof.
  induction symbols as [|raw rest IH]; intros Hall; [done|].
  simpl. unfold aggregate_symbol.
  rewrite must_scrape_has_url by (apply Hall; left).
  apply IH. intros r Hr. apply Hall. by right.
Qed.

End Aggregator.

(** ** Merging scraped links *)

(** C1. When a symbol is scraped, every scraped (year, url) pair ends up
    in the entry of the symbol.  If the entry had no such year, the pair is
    logged as added and counted as added; if it had the year with another
    URL, the pair is logged as modified, not as added, and counted as
    modified; if it had the year with this URL, the entry keeps it, no
    line is logged for the pair and it is counted nowhere. *)
Theorem merge_scraped_links (E : env) (force_update : bool) (fy raw : string)
    (a : agg) (w w1 : world) (symbol_links : list (string * string)) :
  let symbol := Str.upper raw in
  let before := links_of (annual_report_links a) symbol in
  must_scrape force_update fy (annual_report_links a) symbol = true →
  scrape_links_for E symbol w = (Ok symbol_links, w1) →
  ∃ a' w' lines,
    aggregate_symbol E force_update fy raw a w = (None, a', w') ∧
    log w' = log w1 ++ lines ∧
    links_added a' = (links_added a + length (new_links before symbol_links))%nat ∧
    links_modified a'
      = (links_modified a + length (changed_links before symbol_links))%nat ∧
    ∀ year link, (year, link) ∈ symbol_links →
      links_of (annual_report_links a') symbol !! year = Some link ∧
      match before !! year with
      | None =>
          ((INFO, Added symbol year link) ∈ lines) ∧
          ((WARNING, Modified symbol year link) ∉ lines) ∧
          ((year, link) ∈ new_links before symbol_links) ∧
          ((year, link) ∉ changed_links before symbol_links)
      | Some old =>
          if decide (old = link) then
            ((INFO, Added symbol year link) ∉ lines) ∧
            ((WARNING, Modified symbol year link) ∉ lines) ∧
            ((year, link) ∉ new_links before symbol_links) ∧
            ((year, link) ∉ changed_links before symbol_links)
          else
            ((WARNING, Modified symbol year link) ∈ lines) ∧
            ((INFO, Added symbol year link) ∉ lines) ∧
            ((year, link) ∈ changed_links before symbol_links) ∧
            ((year, link) ∉ new_links before symbol_links)
      end.
Proof.
  intros symbol before Hmust Hscrape.
  pose proof (scrape_links_for_NoDup _ _ _ _ _ Hscrape) as Hnd.
  unfold aggregate_symbol. fold symbol. rewrite Hmust, Hscrape.
  pose proof (enter_symbol_spec symbol a w1) as Henter.
  destruct (enter_symbol symbol (a, w1)) as [a0 w0].
  destruct Henter as (E1 & E2 & E3 & _ & E5).
  pose proof (merge_links_spec symbol before symbol_links a0 w0 Hnd) as Hmerge.
  destruct (merge_links symbol symbol_links (a0, w0)) as [a' w'].
  destruct Hmerge as (M1 & _ & _ & _ & M5 & M6 & M7).
  { intros item _. by rewrite E1. }
  exists a', w'. eexists. split; [done|].
  split; [by rewrite M5, E5, <- app_assoc|].
  split; [by rewrite M6, E2|]. split; [by rewrite M7, E3|].
  intros year link Hin. split; [by apply M1|].
  set (debug := if bool_decide (is_Some (annual_report_links a !! symbol))
                then [] else [(DEBUG, WouldBeAdded symbol)]).
  assert (∀ r, r.1 ≠ DEBUG →
            r ∈ debug ++ omap (fun item => merge_line symbol (before !! item.1) item)
                           symbol_links
            ↔ r ∈ omap (fun item => merge_line symbol (before !! item.1) item)
                    symbol_links) as Hlines.
  { intros r Hr. rewrite elem_of_app. split; [|by right].
    intros [Hd|?]; [|done]. unfold debug in Hd. case_bool_decide.
    - by apply elem_of_nil in Hd.
    - apply list_elem_of_singleton in Hd. by subst r. }
  assert (∀ y u, (y, u) ∈ new_links before symbol_links
                 ↔ (y, u) ∈ symbol_links ∧ before !! y = None) as Hnew.
  { intros y u. unfold new_links. rewrite list_elem_of_filter. simpl. tauto. }
  assert (∀ y u, (y, u) ∈ changed_links before symbol_links
                 ↔ (y, u) ∈ symbol_links ∧
                   is_Some (before !! y) ∧ before !! y ≠ Some u) as Hchanged.
  { intros y u. unfold changed_links. rewrite list_elem_of_filter. simpl. tauto. }
  destruct (before !! year) as [old|] eqn:Hold;
    [destruct (decide (old = link)) as [->|Hne]|];
    rewrite !Hlines, merge_line_added, merge_line_modified, Hnew, Hchanged,
      ?Hold by done.
  - repeat split.
    + by intros [_ ?].
    + intros [_ (? & ? & ?)]. congruence.
    + by intros [? ?].
    + intros [_ [_ ?]]. congruence.
  - repeat split; try done.
    + by exists old.
    + by intros [_ ?].
    + congruence.
    + by intros [? ?].
  - repeat split; try done.
    + intros [_ (? & ? & ?)]. congruence.
    + intros [_ [[? ?] _]]. congruence.
Qed.

Lemma merge_scraped_links_witness :
  ∃ a' w',
    aggregate_symbol Demo.site true "2023-2024" "tcs" (start_agg Demo.index) Demo.fresh
    = (None, a', w') ∧
    links_added a' = 1%nat ∧ links_modified a' = 1%nat.
Proof.
  destruct (merge_scraped_links Demo.site true "2023-2024" "tcs"
              (start_agg Demo.index) Demo.fresh _ _ eq_refl eq_refl)
    as (a' & w' & lines & Hrun & _ & Hadd & Hmod & _).
  exists a', w'. split; [exact Hrun|]. split; [exact Hadd|exact Hmod].
Defined.

(** ** Symbols that are up to date *)

(** C2. Without [force_update], a symbol that has a URL under the latest
    financial year is not scraped: its turn of the loop changes nothing
    and sends no request.  When every symbol of the file is such a symbol,
    the run sends no request, counts no symbol scraped, no link added and
    no link modified, and writes back the index it read. *)
Theorem aggregate_up_to_date (E : env) (symbol_file : string) (offset : Z)
    (w : world) :
  let idx := default ∅ (json_file w) in
  let fy := get_latest_financial_year E in
  let symbols :=
    slice_from offset
      (filter (fun s => s ≠ EmptyString) (default [] (symbol_lines E symbol_file))) in
  (∀ raw, raw ∈ symbols → has_url idx (Str.upper raw) fy) →
  (∀ raw a w0,
     has_url (annual_report_links a) (Str.upper raw) fy →
     aggregate_symbol E false fy raw a w0 = (None, a, w0)) ∧
  ∃ w',
    aggregate_links E symbol_file false offset w = (Ok tt, w') ∧
    json_file w' = Some idx ∧
    net w' = net w ∧ files w' = files w ∧ dirs w' = dirs w ∧
    log w' =
      log w ++ [(DEBUG, ReadingJson); (DEBUG, ReadingSymbols)]
        ++ match symbol_lines E symbol_file with
           | Some _ => []
           | None => [(ERROR, SymbolFileNotFound symbol_file)]
           end
        ++ [(DEBUG, WritingJson); (INFO, TotalScraped 0); (INFO, TotalAdded 0 []);
            (INFO, TotalModified 0 []); (INFO, AggregationFinished)].
Proof.
  intros idx fy symbols Hall. split.
  - intros raw a w0 Hurl. unfold aggregate_symbol.
    by rewrite must_scrape_has_url.
  - unfold aggregate_links, bind, read_json, read_symbol_file, logger, ret, bind.
    destruct (symbol_lines E symbol_file) as [lines|] eqn:Hlines;
      cbn -[aggregate_loop slice_from filter get_latest_financial_year];
      rewrite (aggregate_loop_skip E fy) by (apply Hall);
      cbn; eexists; (split; [reflexivity|]); cbn;
      rewrite <- ?app_assoc; by repeat split.
Qed.

(** The URLs the aggregator stores are never empty: each starts with
    REPORT_URL. *)
Lemma scraped_url_not_empty (E : env) (symbol : string) (w w' : world)
    (links : list (string * string)) (y u : string) :
  scrape_links_for E symbol w = (Ok links, w') → (y, u) ∈ links →
  u ≠ EmptyString.
Proof.
  intros Hrun Hin.
  destruct (link_page E (LINK_URL (encode_special_characters symbol)))
    as [anchors|e] eqn:Hpage.
  - rewrite (scrape_links_for_eq E _ _ _ Hpage) in Hrun.
    destruct (collect_links E anchors ∅) as [m|] eqn:Hm; [|done].
    injection Hrun as <- _. apply elem_of_sorted_items in Hin.
    destruct (collect_links_origin E _ _ _ _ _ Hm Hin) as [Hempty|(it & h & _ & _ & _ & ->)].
    + by rewrite lookup_empty in Hempty.
    + done.
  - unfold scrape_links_for, get_link_anchors, bind, logger, sent in Hrun.
    simpl in Hrun. by rewrite Hpage in Hrun.
Qed.

Lemma aggregate_up_to_date_witness :
  ∃ w', aggregate_links Demo.site "download_symbols.txt" false 0 Demo.indexed
        = (Ok tt, w') ∧
        json_file w' = Some Demo.index ∧ net w' = [].
Proof.
  destruct (aggregate_up_to_date Demo.site "download_symbols.txt" 0 Demo.indexed)
    as [_ (w' & Hrun & Hjson & Hnet & _)].
  - intros raw Hraw. apply list_elem_of_In in Hraw. simpl in Hraw.
    destruct Hraw as [<-|[<-|[]]]; do 2 eexists;
      (split; [reflexivity|]); (split; [reflexivity|discriminate]).
  - exists w'. split; [exact Hrun|]. split; [exact Hjson|exact Hnet].
Defined.

(** ** The index is always written *)

(** C3. Whether the loop over the symbols ends or an exception leaves it,
    the index as the loop left it is written to the JSON file and the
    counts of symbols scraped, links added and links modified are logged
    with their symbol lists; after that the exception of the loop, if
    any, is the outcome of the run, and only a run without one logs that
    the aggregation finished. *)
Theorem aggregate_always_writes (E : env) (symbol_file : string)
    (force_update : bool) (offset : Z) (w : world) :
  let idx := default ∅ (json_file w) in
  let '(symbol_list, w0) :=
    match read_symbol_file E symbol_file (log_line DEBUG ReadingJson w) with
    | (Ok l, w0) => (l, w0)
    | (Raise _, w0) => ([], w0)
    end in
  let '(raised, a, w1) :=
    aggregate_loop E force_update (get_latest_financial_year E)
      (slice_from offset symbol_list) (start_agg idx) w0 in
  ∃ w',
    aggregate_links E symbol_file force_update offset w
    = (match raised with Some e => Raise e | None => Ok tt end, w') ∧
    json_file w' = Some (annual_report_links a) ∧
    log w' =
      log w1 ++ [(DEBUG, WritingJson);
                 (INFO, TotalScraped (symbols_scraped a));
                 (INFO, TotalAdded (links_added a) (links_added_for a));
                 (INFO, TotalModified (links_modified a) (links_modified_for a))]
        ++ match raised with
           | Some _ => []
           | None => [(INFO, AggregationFinished)]
           end ∧
    files w' = files w1 ∧ dirs w' = dirs w1 ∧ net w' = net w1.
Proof.
  intros idx.
  unfold aggregate_links, bind, read_json, read_symbol_file, logger, ret, bind.
  destruct (symbol_lines E symbol_file) as [lines|];
    cbn -[aggregate_loop slice_from filter get_latest_financial_year];
    fold idx;
    destruct (aggregate_loop _ _ _ _ _ _) as [[raised a] w1];
    destruct raised as [e|]; cbn; eexists; (split; [reflexivity|]); cbn;
    rewrite <- ?app_assoc; by repeat split.
Qed.

(** A run in which the second symbol raises: the links of the first are
    on disk, the third symbol is never reached. *)
Example aggregate_interrupted :
  ∃ w', aggregate_links Demo.site "all_symbols.txt" false 0 Demo.fresh
        = (Raise TypeError, w') ∧
        json_file w' =
          Some {[ "TCS" :=
                    <["2022-2023" := REPORT_URL +:+ Demo.tcs_2022]>
                      (<["2023-2024" := REPORT_URL +:+ Demo.tcs_2023]>
                         {[ "Annual Report" :=
                              REPORT_URL +:+ "/annual_reports/other.zip" ]}) ]} ∧
        (INFO, TotalAdded 3 ["TCS"; "TCS"; "TCS"]) ∈ log w' ∧
        (INFO, AggregationFinished) ∉ log w'.
Proof.
  eexists. split; [vm_compute; reflexivity|]. split; [by vm_compute|].
  split; rewrite list_elem_of_In; cbn.
  - repeat ((left; reflexivity) || right).
  - intros H. repeat (destruct H as [H|H]; [discriminate|]). exact H.
Qed.

(** ** The downloader *)

Section Downloader.

Variable E : env.

Lemma app_empty_r (s : string) : s +:+ EmptyString = s.
Proof. induction s as [|c s IH]; [done|]. by rewrite StrFacts.app_cons, IH. Qed.

Lemma alter_lookup_Some {A} (f : A → A) (m : gmap string A) (p : string) (x : A) :
  m !! p = Some x → alter f p m = <[p := f x]> m.
Proof.
  intros Hp. apply map_eq. intros q.
  destruct (decide (p = q)) as [<-|Hne].
  - by rewrite lookup_alter_eq, lookup_insert_eq, Hp.
  - by rewrite lookup_alter_ne, lookup_insert_ne.
Qed.

Lemma write_chunks_run (p : string) (total : Z) (body : list string) :
  ∀ (n : Z) (w : world) (f : file),
    files w !! p = Some f →
    write_chunks p total body n w
    = (Ok tt,
       set_stdout (stdout w ++ progress_events total body n)
         (set_files (<[p := {| content := content f +:+ Str.cat body;
                               utime := utime f |}]> (files w)) w)).
Proof.
  induction body as [|chunk rest IH]; intros n w f Hf.
  - simpl. unfold ret. f_equal. destruct w as [j fs ds lg so nt], f as [c t].
    unfold set_stdout, set_files. simpl in *.
    by rewrite app_nil_r, app_empty_r, insert_id.
  - cbn [write_chunks]. unfold bind at 1. unfold file_write at 1.
    unfold bind at 1.
    assert (∀ e w0, write e w0 = (Ok tt, set_stdout (stdout w0 ++ [e]) w0)) as Hw
      by done.
    destruct (decide (total ≠ 0)) as [Ht|Ht]; rewrite Hw;
      (erewrite IH;
       [|cbn; rewrite (alter_lookup_Some _ _ _ _ Hf); apply lookup_insert_eq]);
      f_equal; destruct w as [j fs ds lg so nt], f as [c t];
      unfold set_stdout, set_files; cbn in *;
      rewrite (alter_lookup_Some _ _ _ _ Hf); cbn;
      rewrite insert_insert_eq, <- app_assoc, StrFacts.app_assoc; cbn;
      by rewrite ?decide_True, ?decide_False by done.
Qed.





(** The [try] block of [download_to_save]: the temporary file holds the
    chunks that arrived, whether or not the transfer broke. *)
Lemma stream_run (download_file : string) (total : Z) (r : response) (w : world) :
  names_dir download_file w = false →
  (open_wb download_file ;;;
   write_chunks download_file total (chunks r) 0 ;;;
   match broken r with
   | Some e => raise e
   | None => ret tt
   end) w
  = (match broken r with Some e => Raise e | None => Ok tt end,
     set_stdout (stdout w ++ progress_events total (chunks r) 0)
       (set_files (<[download_file := received r None]> (files w)) w)).
Proof.
  intros Hfree.
  unfold bind at 1. unfold open_wb at 1. rewrite Hfree. unfold bind at 1.
  erewrite write_chunks_run by (cbn; apply lookup_insert_eq).
  cbn. rewrite insert_insert_eq.
  destruct w as [j fs ds lg so nt]. unfold set_stdout, set_files. cbn.
  by destruct (broken r).
Qed.

Lemma download_to_save_run (url download_location : string) (r : response)
    (w : world) :
  download_location ≠ EmptyString →
  http_get E url = Ok r → ok r = true → content_length r ≠ Some None →
  let output_file := path_join download_location (output_file_name url) in
  let download_file :=
    path_join download_location (output_file_name url +:+ ".downloading") in
  names_dir download_file (streamed url download_location r w) = false →
  download_to_save E url download_location w
  = match broken r with
    | Some e => (Raise e, streamed url download_location r w)
    | None =>
        if names_dir output_file (streamed url download_location r w)
        then (Raise OSError, streamed url download_location r w)
        else
          (match last_modified r with
           | Some (String c s) => apply_server_timestamp E output_file (String c s)
           | _ => ret tt
           end ;;;
           logger DEBUG (Downloaded url))
            (move download_file output_file (streamed url download_location r w))
    end.
Proof.
  intros Hloc Hget Hok Hlen output_file download_file Hfree.
  unfold download_to_save. unfold bind at 1. unfold makedirs.
  rewrite decide_False by done. unfold bind at 1. unfold sent at 1.
  rewrite Hget, Hok. cbn [negb]. unfold bind at 1.
  assert (∃ total, header_value (content_length r) = ret total ∧
                   total = match content_length r with Some (Some n) => n | _ => 0 end)
    as (total & -> & Htotal).
  { destruct (content_length r) as [[n|]|]; [by eexists| done |by eexists]. }
  unfold ret at 1. unfold try_except_else. rewrite stream_run by exact Hfree.
  fold download_file output_file.
  assert (∀ q w1 w2, dirs w1 = dirs w2 → names_dir q w1 = names_dir q w2) as Hnames.
  { intros q w1 w2 Hd. unfold names_dir. by rewrite Hd. }
  unfold streamed. fold download_file. rewrite <- Htotal.
  destruct (broken r) as [e|].
  - unfold write. f_equal. destruct w as [j fs ds lg so nt].
    unfold set_stdout, set_files, set_net, set_dirs. cbn. by rewrite <- app_assoc.
  - unfold bind at 1. unfold write at 1. unfold bind at 1. unfold os_replace at 1.
    erewrite (Hnames output_file) by reflexivity.
    destruct (names_dir output_file _).
    + f_equal. destruct w as [j fs ds lg so nt].
      unfold set_stdout, set_files, set_net, set_dirs. cbn. by rewrite <- app_assoc.
    + f_equal. f_equal. destruct w as [j fs ds lg so nt].
      unfold set_stdout, set_files, set_net, set_dirs. cbn. by rewrite <- app_assoc.
Qed.

(** When the temporary name is a directory the [try] block fails at
    [open] and nothing is written. *)
Lemma download_to_save_blocked (url download_location : string) (r : response)
    (w : world) :
  download_location ≠ EmptyString →
  http_get E url = Ok r → ok r = true → content_length r ≠ Some None →
  names_dir (path_join download_location (output_file_name url +:+ ".downloading"))
    (streamed url download_location r w) = true →
  ∃ w', download_to_save E url download_location w = (Raise OSError, w') ∧
        log w' = log w ∧ files w' = files w.
Proof.
  intros Hloc Hget Hok Hlen Hdir.
  unfold download_to_save. unfold bind at 1. unfold makedirs.
  rewrite decide_False by done. unfold bind at 1. unfold sent at 1.
  rewrite Hget, Hok. cbn [negb]. unfold bind at 1.
  assert (∃ total, header_value (content_length r) = ret total)
    as (total & ->).
  { destruct (content_length r) as [[n|]|]; [by eexists| done |by eexists]. }
  unfold ret at 1. unfold try_except_else. unfold bind at 1. unfold open_wb at 1.
  unfold names_dir in Hdir |- *. cbn in Hdir |- *. rewrite Hdir.
  by eexists.
Qed.

Lemma download_to_save_refused (url download_location : string) (r : response)
    (w : world) :
  download_location ≠ EmptyString →
  http_get E url = Ok r → ok r = false →
  download_to_save E url download_location w
  = (Ok tt,
     log_line ERROR (CouldNotBeDownloaded url)
       (set_net (net w ++ [GET url])
          (set_dirs (dirs w ∪ list_to_set
                       (filter (fun d => d ≠ EmptyString) (dir_prefixes download_location)))
             w))).
Proof.
  intros Hloc Hget Hok.
  unfold download_to_save. unfold bind at 1. unfold makedirs.
  rewrite decide_False by done. unfold bind at 1. unfold sent at 1.
  by rewrite Hget, Hok.
Qed.

(** The turn of a symbol whose report is wanted and not on disk, with
    none of the three flags set: the line of the download, then
    [download_to_save]. *)
Lemma download_symbol_fetch (fy loc : string)
    (idx : gmap string (gmap string string)) (raw : string) (total : Z)
    (w : world) (links : gmap string string) (url : string) :
  get_links idx (Str.upper raw) = Some links →
  get_url links fy = Some url →
  path_exists (path_join loc (basename url)) w = false →
  path_exists (path_join loc (output_file_name url)) w = false →
  download_symbol E fy loc false false false idx raw total w
  = match download_to_save E url loc
            (log_line INFO (Downloading (Str.upper raw) url) w) with
    | (Ok _, w') => (Ok total, w')
    | (Raise e, w') => (Raise e, w')
    end.
Proof.
  intros Hlinks Hurl Hout Hren. unfold download_symbol.
  rewrite Hlinks, Hurl. unfold bind, os_path_exists, logger.
  rewrite Hout, Hren. cbn [orb negb]. fold (log_line INFO (Downloading (Str.upper raw) url) w).
  by destruct (download_to_save E url loc _) as [[[]|e] w'].
Qed.

End Downloader.


(** ** The life of a download *)



(** The transfer that breaks, on the site: what arrived stays under the
    temporary name. *)
Example download_interrupted :
  ∃ w', download_to_save Demo.site (REPORT_URL +:+ Demo.tcs_2022)
          "reports/2022-2023" Demo.fresh = (Raise ConnectionError, w') ∧
        files w' =
          {[ "reports/2022-2023/TCS_2022_2023_05062023.pdf.downloading" :=
               {| content := "%PD"; utime := None |} ]} ∧
        dirs w' = {[ "reports"; "reports/2022-2023" ]} ∧
        stdout w' = [ProgressBytes 3; Newline] ∧
        log w' = [].
Proof.
  eexists. split; [vm_compute; reflexivity|]. by vm_compute.
Qed.


(** ** A refused download *)

(** C9. When the GET of a report is answered with a status that is not
    OK, [download_to_save] logs the error and returns: no file is written,
    there is no temporary file, and the loop goes on with the next
    symbol. *)
Theorem refused_download_skipped (E : env) (fy loc : string)
    (idx : gmap string (gmap string string)) (raw : string) (rest : list string)
    (total : Z) (w : world) (links : gmap string string) (url : string)
    (r : response) :
  loc ≠ EmptyString →
  get_links idx (Str.upper raw) = Some links →
  get_url links fy = Some url →
  path_exists (path_join loc (basename url)) w = false →
  path_exists (path_join loc (output_file_name url)) w = false →
  http_get E url = Ok r → ok r = false →
  (∃ w1, download_to_save E url loc w = (Ok tt, w1) ∧
         files w1 = files w ∧
         log w1 = log w ++ [(ERROR, CouldNotBeDownloaded url)] ∧
         net w1 = net w ++ [GET url]) ∧
  ∃ w',
    download_symbol E fy loc false false false idx raw total w = (Ok total, w') ∧
    files w' = files w ∧
    log w' = log w ++ [(INFO, Downloading (Str.upper raw) url);
                       (ERROR, CouldNotBeDownloaded url)] ∧
    net w' = net w ++ [GET url] ∧
    download_loop E fy loc false false false idx (raw :: rest) total w
    = download_loop E fy loc false false false idx rest total w'.
Proof.
  intros Hloc Hlinks Hurl Hout Hren Hget Hok. split.
  - rewrite (download_to_save_refused E _ _ _ _ Hloc Hget Hok).
    eexists. split; [reflexivity|]. by cbn.
  - cbn [download_loop]. unfold bind at 1.
    rewrite (download_symbol_fetch E _ _ _ _ _ _ _ _ Hlinks Hurl Hout Hren).
    rewrite (download_to_save_refused E _ _ _ _ Hloc Hget Hok).
    eexists. split; [reflexivity|]. cbn. rewrite <- app_assoc. by repeat split.
Qed.

Lemma refused_download_skipped_witness :
  ∃ w', download_loop Demo.site "2023-2024" "reports/2023-2024" false false false
          Demo.scraped ["WIPRO"; "tcs"] 0 Demo.fresh
        = download_loop Demo.site "2023-2024" "reports/2023-2024" false false false
            Demo.scraped ["tcs"] 0 w' ∧
        files w' = ∅ ∧
        log w' = [(INFO, Downloading "WIPRO" (REPORT_URL +:+ Demo.wipro_2023));
                  (ERROR, CouldNotBeDownloaded (REPORT_URL +:+ Demo.wipro_2023))].
Proof.
  destruct (refused_download_skipped Demo.site "2023-2024" "reports/2023-2024"
              Demo.scraped "WIPRO" ["tcs"] 0 Demo.fresh
              (<["2023-2024" := REPORT_URL +:+ Demo.wipro_2023]> ∅)
              (REPORT_URL +:+ Demo.wipro_2023) Demo.refused_response)
    as [_ (w' & _ & Hfiles & Hlog & _ & Hloop)];
    [discriminate | reflexivity | reflexivity | reflexivity | reflexivity
    | reflexivity | reflexivity |].
  exists w'. split; [exact Hloop|]. split; [exact Hfiles|exact Hlog].
Defined.

(** ** Reports already on disk *)

(** C7. When the report of a symbol is on disk under the basename of its
    URL or under the output name, the turn of the symbol ends without an
    HTTP request, whatever the flags; when existing files are not being
    renamed it changes nothing but the log, which gets the line that the
    file already exists. *)
Theorem existing_report_skipped (E : env) (fy loc : string)
    (simulate size_only rename_existing : bool)
    (idx : gmap string (gmap string string)) (raw : string) (total : Z)
    (w : world) (links : gmap string string) (url : string) :
  get_links idx (Str.upper raw) = Some links →
  get_url links fy = Some url →
  path_exists (path_join loc (basename url)) w
    || path_exists (path_join loc (output_file_name url)) w = true →
  ∃ w',
    download_symbol E fy loc simulate size_only rename_existing idx raw total w
    = (Ok total, w') ∧
    net w' = net w ∧
    (rename_existing = false →
     w' = log_line DEBUG
            (AlreadyExists (Str.upper raw)
               (if path_exists (path_join loc (output_file_name url)) w
                then output_file_name url else basename url)) w).
Proof.
  intros Hlinks Hurl Hthere. unfold download_symbol. rewrite Hlinks, Hurl.
  destruct rename_existing.
  - unfold bind, os_path_exists, logger, ret, os_rename, raise.
    destruct (path_exists (path_join loc (basename url)) w); [|by eexists].
    destruct simulate; cbn [negb]; [by eexists|].
    destruct (rename_fails E _ _); eexists; (split; [reflexivity|]);
      split; try done.
    unfold move. cbn. destruct (files w !! _); [done|]. by case_bool_decide.
  - unfold bind, os_path_exists, logger, ret. rewrite Hthere.
    eexists. split; [reflexivity|]. by split.
Qed.

Lemma existing_report_skipped_witness :
  download_symbol Demo.site "2023-2024" "reports/2023-2024" false false false
    Demo.scraped "tcs" 0
    (set_files {[ "reports/2023-2024/TCS_2023_2024_04062024.pdf" :=
                    {| content := "%PDF-1.7"; utime := None |} ]} Demo.fresh)
  = (Ok 0,
     set_log [(DEBUG, AlreadyExists "TCS" "TCS_2023_2024_04062024.pdf")]
       (set_files {[ "reports/2023-2024/TCS_2023_2024_04062024.pdf" :=
                       {| content := "%PDF-1.7"; utime := None |} ]} Demo.fresh)).
Proof.
  destruct (existing_report_skipped Demo.site "2023-2024" "reports/2023-2024"
              false false false Demo.scraped "tcs" 0
              (set_files {[ "reports/2023-2024/TCS_2023_2024_04062024.pdf" :=
                              {| content := "%PDF-1.7"; utime := None |} ]} Demo.fresh)
              (<["2022-2023" := REPORT_URL +:+ Demo.tcs_2022]>
                 (<["2023-2024" := REPORT_URL +:+ Demo.tcs_2023]>
                    (<["Annual Report" := REPORT_URL +:+ "/annual_reports/other.zip"]> ∅)))
              (REPORT_URL +:+ Demo.tcs_2023))
    as (w' & Hrun & _ & Hw);
    [reflexivity | reflexivity | reflexivity |].
  rewrite Hrun, (Hw eq_refl). reflexivity.
Defined.

(** ** Simulated runs *)

Section Simulate.

Variable E : env.

Lemma same_disk_refl (w : world) : same_disk w w.
Proof. by repeat split. Qed.

Lemma same_disk_trans (w1 w2 w3 : world) :
  same_disk w1 w2 → same_disk w2 w3 → same_disk w1 w3.
Proof. intros (? & ? & ?) (? & ? & ?). repeat split; congruence. Qed.

Lemma get_download_size_disk (url symbol : string) (w : world) :
  same_disk w (get_download_size E url symbol w).2.
Proof.
  unfold get_download_size, bind, sent, header_value, logger, ret, raise.
  destruct (http_head E url) as [[[n|]|]|e]; by repeat split.
Qed.

Lemma download_symbol_simulate (fy loc : string) (size_only rename_existing : bool)
    (idx : gmap string (gmap string string)) (raw : string) (total : Z) (w : world) :
  same_disk w
    (download_symbol E fy loc true size_only rename_existing idx raw total w).2.
Proof.
  unfold download_symbol.
  destruct (get_links idx (Str.upper raw)) as [links|]; [|by repeat split].
  destruct (get_url links fy) as [url|]; [|by repeat split].
  destruct rename_existing.
  - unfold bind, os_path_exists, logger, ret. cbn [negb].
    by destruct (path_exists _ w); repeat split.
  - unfold bind at 1. unfold os_path_exists at 1. unfold bind at 1.
    unfold os_path_exists at 1.
    destruct (_ || _); [by repeat split|].
    destruct size_only.
    + unfold bind, ret.
      pose proof (get_download_size_disk url (Str.upper raw) w) as Hsize.
      by destruct (get_download_size E url (Str.upper raw) w) as [[n|e] w1].
    + by repeat split.
Qed.

Lemma download_loop_simulate (fy loc : string) (size_only rename_existing : bool)
    (idx : gmap string (gmap string string)) (symbols : list string) :
  ∀ (total : Z) (w : world),
    same_disk w
      (download_loop E fy loc true size_only rename_existing idx symbols total w).2.
Proof.
  induction symbols as [|raw rest IH]; intros total w; [apply same_disk_refl|].
  cbn [download_loop]. unfold bind.
  pose proof (download_symbol_simulate fy loc size_only rename_existing idx raw total w)
    as Hstep.
  destruct (download_symbol E fy loc true size_only rename_existing idx raw total w)
    as [[total'|e] w1]; [|done].
  eapply same_disk_trans; [exact Hstep|apply IH].
Qed.

Lemma download_reports_simulate (symbol_file fy base : string)
    (size_only rename_existing : bool) (offset : Z) (w : world) :
  same_disk w
    (download_reports E symbol_file fy base true size_only rename_existing offset w).2.
Proof.
  unfold download_reports. unfold bind at 1. unfold read_json at 1.
  unfold bind at 1. unfold logger at 1. unfold bind at 1.
  set (w1 := set_log _ w).
  assert (same_disk w w1) as H1 by by repeat split.
  pose proof (fun l => download_loop_simulate fy (path_join base fy) size_only
                rename_existing (default ∅ (json_file w1)) l 0) as Hloop.
  unfold read_symbol_file, bind, logger, ret.
  destruct (symbol_lines E symbol_file) as [lines|].
  - match goal with |- context [download_loop _ _ _ _ _ _ _ ?l _ ?w0] =>
      specialize (Hloop l w0); destruct (download_loop _ _ _ _ _ _ _ l _ w0)
        as [[total|e] w2] end.
    + by destruct size_only, Hloop as (? & ? & ?).
    + by destruct Hloop as (? & ? & ?).
  - match goal with |- context [download_loop _ _ _ _ _ _ _ ?l _ ?w0] =>
      specialize (Hloop l w0); destruct (download_loop _ _ _ _ _ _ _ l _ w0)
        as [[total|e] w2] end.
    + by destruct size_only, Hloop as (? & ? & ?).
    + by destruct Hloop as (? & ? & ?).
Qed.

Lemma download_to_save_log (url loc : string) (w : world) :
  ∃ extra, log (download_to_save E url loc w).2 = log w ++ extra ∧
           (extra = [] ∨ extra = [(ERROR, CouldNotBeDownloaded url)] ∨
            extra = [(DEBUG, Downloaded url)]).
Proof.
  destruct (decide (loc = EmptyString)) as [->|Hloc].
  { exists []. rewrite app_nil_r. split; [done|by left]. }
  destruct (http_get E url) as [r|e] eqn:Hget; cycle 1.
  { exists []. rewrite app_nil_r. split; [|by left].
    unfold download_to_save, bind, makedirs, sent.
    rewrite decide_False by done. by rewrite Hget. }
  destruct (ok r) eqn:Hok; cycle 1.
  { rewrite (download_to_save_refused E _ _ _ _ Hloc Hget Hok).
    eexists. split; [reflexivity|]. right. by left. }
  destruct (decide (content_length r = Some None)) as [Hlen|Hlen].
  { exists []. rewrite app_nil_r. split; [|by left].
    unfold download_to_save, bind, makedirs, sent.
    rewrite decide_False by done. by rewrite Hget, Hok, Hlen. }
  destruct (names_dir (path_join loc (output_file_name url +:+ ".downloading"))
              (streamed url loc r w)) eqn:Hopen.
  { destruct (download_to_save_blocked E _ _ _ _ Hloc Hget Hok Hlen Hopen)
      as (w' & -> & Hlog & _).
    exists []. rewrite app_nil_r. split; [done|by left]. }
  rewrite (download_to_save_run E _ _ _ _ Hloc Hget Hok Hlen Hopen).
  destruct (broken r).
  { exists []. rewrite app_nil_r. split; [done|by left]. }
  destruct (names_dir (path_join loc (output_file_name url)) _).
  { exists []. rewrite app_nil_r. split; [done|by left]. }
  assert (∀ a b, log (move a b (streamed url loc r w)) = log w) as Hmove.
  { intros a b. unfold move. destruct (files _ !! a); [done|].
    by case_bool_decide. }
  unfold bind, logger, apply_server_timestamp, os_utime, ret, raise.
  destruct (last_modified r) as [[|c s]|].
  - eexists. cbn. rewrite Hmove. split; [reflexivity|]. right. by right.
  - destruct (strptime E (String c s)).
    + eexists. cbn. rewrite Hmove. split; [reflexivity|]. right. by right.
    + exists []. cbn. rewrite Hmove, app_nil_r. split; [done|by left].
  - eexists. cbn. rewrite Hmove. split; [reflexivity|]. right. by right.
Qed.

(** The turn of a symbol logs the same lines simulated or not, up to the
    lines of the renaming or the download itself. *)
Lemma download_symbol_log (fy loc : string) (size_only rename_existing : bool)
    (idx : gmap string (gmap string string)) (raw : string) (total : Z) (w : world) :
  ∃ extra,
    log (download_symbol E fy loc false size_only rename_existing idx raw total w).2
    = log (download_symbol E fy loc true size_only rename_existing idx raw total w).2
      ++ extra ∧
    action_lines extra.
Proof.
  assert (action_lines []) as Hnil by by left.
  unfold download_symbol.
  destruct (get_links idx (Str.upper raw)) as [links|];
    [|exists []; by rewrite app_nil_r].
  destruct (get_url links fy) as [url|]; [|exists []; by rewrite app_nil_r].
  destruct rename_existing.
  - unfold bind, os_path_exists, logger, ret, os_rename, raise. cbn [negb].
    destruct (path_exists _ w); [|exists []; by rewrite app_nil_r].
    destruct (rename_fails E _ _).
    + eexists. split; [reflexivity|]. right. left. by eexists.
    + exists []. rewrite app_nil_r. split; [|done].
      unfold move. cbn. destruct (files w !! _); [done|]. by case_bool_decide.
  - unfold bind, os_path_exists, logger, ret. cbn [negb].
    destruct (_ || _); [exists []; by rewrite app_nil_r|].
    destruct size_only; [exists []; by rewrite app_nil_r|].
    destruct (download_to_save_log url loc
                (set_log (log w ++ [(INFO, Downloading (Str.upper raw) url)]) w))
      as (extra & Hlog & Hextra).
    exists extra. split.
    + by destruct (download_to_save E url loc _) as [[[]|e] w1].
    + destruct Hextra as [->|[->| ->]]; [done| |].
      * right. right. left. by eexists.
      * right. right. right. by eexists.
Qed.

End Simulate.

(** C8, as the program has it.  A simulated run creates, renames and
    deletes nothing: the files, the directories and the JSON file are
    those it started with.  In the turn of a symbol, from the same world,
    the simulated run logs what the run that is not simulated logs, up to
    the lines of the action itself, which only the latter logs at the end
    of the turn: the warning of a failed rename, and the error or the
    debug line of [download_to_save]. *)
Theorem simulate_changes_nothing (E : env) (symbol_file fy base : string)
    (size_only rename_existing : bool) (offset : Z) (w : world) :
  same_disk w
    (download_reports E symbol_file fy base true size_only rename_existing offset w).2 ∧
  ∀ loc idx raw total w0,
    ∃ extra,
      log (download_symbol E fy loc false size_only rename_existing idx raw total w0).2
      = log (download_symbol E fy loc true size_only rename_existing idx raw total w0).2
        ++ extra ∧
      action_lines extra.
Proof.
  split.
  - apply download_reports_simulate.
  - intros loc idx raw total w0. apply download_symbol_log.
Qed.

(** On the site, with the scraped index on disk, the run that is not
    simulated logs an error for the refused report of WIPRO (and a debug
    line for the report of TCS) that the simulated run does not log: the
    two logs differ, also in the lines the console shows without
    [--verbose]. *)
Lemma simulate_logs_differ :
  let start := set_json (Some Demo.scraped) Demo.fresh in
  let run simulate :=
    download_reports Demo.site "download_symbols.txt" "2023-2024" "reports"
      simulate false false 0 start in
  ¬ (same_disk start (run true).2 ∧ log (run true).2 = log (run false).2) ∧
  visible (log (run true).2) ≠ visible (log (run false).2) ∧
  (ERROR, CouldNotBeDownloaded (REPORT_URL +:+ Demo.wipro_2023)) ∈ log (run false).2 ∧
  (ERROR, CouldNotBeDownloaded (REPORT_URL +:+ Demo.wipro_2023)) ∉ log (run true).2.
Proof.
  intros start run.
  assert (log (run true).2 =
            [(DEBUG, ReadingJson); (DEBUG, ReadingSymbols);
             (INFO, Downloading "TCS" (REPORT_URL +:+ Demo.tcs_2023));
             (INFO, Downloading "WIPRO" (REPORT_URL +:+ Demo.wipro_2023));
             (INFO, DownloadingFinished)]) as Hsim by (vm_compute; reflexivity).
  assert (log (run false).2 =
            [(DEBUG, ReadingJson); (DEBUG, ReadingSymbols);
             (INFO, Downloading "TCS" (REPORT_URL +:+ Demo.tcs_2023));
             (DEBUG, Downloaded (REPORT_URL +:+ Demo.tcs_2023));
             (INFO, Downloading "WIPRO" (REPORT_URL +:+ Demo.wipro_2023));
             (ERROR, CouldNotBeDownloaded (REPORT_URL +:+ Demo.wipro_2023));
             (INFO, DownloadingFinished)]) as Hreal by (vm_compute; reflexivity).
  rewrite Hsim, Hreal. split; [|split; [|split]].
  - intros [_ Heq]. discriminate Heq.
  - vm_compute. discriminate.
  - rewrite list_elem_of_In. cbn. do 5 right. by left.
  - rewrite list_elem_of_In. cbn.
    intros H. repeat (destruct H as [H|H]; [discriminate|]). exact H.
Qed.

(** With [rename_existing] set, a report that is on disk under the
    basename of its URL is renamed, and the line of the turn is the one of
    the rename: the symbol is not logged as already there. *)
Example existing_report_renamed :
  let there :=
    set_files {[ "reports/2023-2024/AR_5678_TCS_2023_2024_04062024.pdf" :=
                   {| content := "%PDF-1.7"; utime := None |} ]} Demo.fresh in
  let turn :=
    download_symbol Demo.site "2023-2024" "reports/2023-2024" false false true
      Demo.scraped "tcs" 0 there in
  path_exists (path_join "reports/2023-2024"
                 (basename (REPORT_URL +:+ Demo.tcs_2023))) there = true ∧
  turn.1 = Ok 0 ∧
  log turn.2 = [(INFO, RenamedTo "AR_5678_TCS_2023_2024_04062024.pdf"
                         "TCS_2023_2024_04062024.pdf")] ∧
  files turn.2 = {[ "reports/2023-2024/TCS_2023_2024_04062024.pdf" :=
                      {| content := "%PDF-1.7"; utime := None |} ]} ∧
  ¬ (∃ name, (DEBUG, AlreadyExists "TCS" name) ∈ log turn.2).
Proof.
  intros there turn.
  assert (log turn.2 = [(INFO, RenamedTo "AR_5678_TCS_2023_2024_04062024.pdf"
                                 "TCS_2023_2024_04062024.pdf")]) as Hlog
    by (vm_compute; reflexivity).
  split; [by vm_compute|]. split; [by vm_compute|]. split; [exact Hlog|].
  split; [by vm_compute|].
  intros (name & Hin). rewrite Hlog in Hin.
  apply list_elem_of_singleton in Hin. discriminate Hin.
Qed.

(** * Further properties of the program *)

(** X1. The encoded symbol never holds an ampersand; a symbol without an
    ampersand is sent as it is; the encoding goes character by character,
    and the ampersand becomes [%26]. *)
Theorem encoded_symbol_has_no_ampersand (symbol : string) :
  Str.mem "&" (encode_special_characters symbol) = false ∧
  (Str.mem "&" symbol = false → encode_special_characters symbol = symbol) ∧
  (∀ rest, encode_special_characters (symbol +:+ rest)
           = encode_special_characters symbol +:+ encode_special_characters rest) ∧
  encode_special_characters "&" = "%26".
Proof.
  split; [|split; [|split]].
  - by apply replace_clean.
  - apply replace_absent.
  - apply replace_app.
  - reflexivity.
Qed.

(** X2. The label the scraper gives to an anchor whose text is last
    year's number is the label the aggregator looks for: for a current
    year of four digits, [year_label (str (year - 1))] is the latest
    financial year. *)
Theorem latest_year_is_a_label (E : env) :
  (1001 ≤ today_year E ≤ 10000)%Z →
  year_label (Str.str (today_year E - 1)) = get_latest_financial_year E.
Proof.
  intros Hy. unfold get_latest_financial_year.
  rewrite (year_label_four_digits _ (today_year E - 1))
    by (apply str_four_digits; lia).
  by replace (today_year E - 1 + 1)%Z with (today_year E) by lia.
Qed.

Lemma latest_year_is_a_label_witness :
  year_label (Str.str (today_year Demo.site - 1))
  = get_latest_financial_year Demo.site.
Proof. apply latest_year_is_a_label. simpl. lia. Defined.

Lemma basename_plain (name : string) :
  Str.mem "/" name = false → basename name = name.
Proof.
  intros Hname. unfold basename. by rewrite StrFacts.split_no_sep.
Qed.

(** X3. The output name of a report whose basename has at most four
    underscore-separated components is the basename itself: renaming
    such a report changes nothing. *)
Theorem short_name_kept (url : string) :
  (length (Str.split "_" (basename url)) ≤ 4)%nat →
  output_file_name url = basename url.
Proof.
  intros Hlen. unfold output_file_name, Str.last_n. cbv zeta.
  replace (length (Str.split "_" (basename url)) - 4)%nat with 0%nat by lia.
  rewrite drop_0. apply join_split.
Qed.

Lemma short_name_kept_witness :
  output_file_name "http://nseindia.com/annual_reports/TCS_2023_2024.pdf"
  = "TCS_2023_2024.pdf".
Proof.
  apply (short_name_kept "http://nseindia.com/annual_reports/TCS_2023_2024.pdf").
  simpl. lia.
Defined.

(** X4. The output name of any URL has no slash and at most four
    underscore-separated components, and it is a fixed point: the output
    name of a file that already has its output name is that name. *)
Theorem output_name_shape (url : string) :
  Str.mem "/" (output_file_name url) = false ∧
  (length (Str.split "_" (output_file_name url)) ≤ 4)%nat ∧
  output_file_name (output_file_name url) = output_file_name url.
Proof.
  set (comps := Str.last_n 4 (Str.split "_" (basename url))).
  assert (output_file_name url = Str.join "_" comps) as Hout by done.
  assert (comps ≠ []) as Hne.
  { unfold comps, Str.last_n.
    pose proof (StrFacts.split_not_nil "_" (basename url)) as Hs.
    intros Hnil. apply (f_equal length) in Hnil. rewrite length_drop in Hnil.
    destruct (Str.split "_" (basename url)); [done|]. simpl in Hnil. lia. }
  assert (Forall (fun w => Str.mem "_" w = false) comps) as Hus.
  { apply Forall_drop, split_components. }
  assert (Forall (fun w => Str.mem "/" w = false) comps) as Hsl.
  { apply Forall_drop, split_keeps_absent, basename_no_slash. }
  assert (Str.mem "/" (output_file_name url) = false) as Hnoslash.
  { rewrite Hout. by apply StrFacts.mem_join. }
  assert (Str.split "_" (output_file_name url) = comps) as Hsplit.
  { rewrite Hout. by apply StrFacts.split_join. }
  assert (length comps ≤ 4)%nat as Hlen.
  { unfold comps, Str.last_n. rewrite length_drop. lia. }
  split; [done|]. split; [by rewrite Hsplit|].
  unfold output_file_name at 1, Str.last_n. cbv zeta.
  rewrite basename_plain, Hsplit by done.
  replace (length comps - 4)%nat with 0%nat by lia.
  by rewrite drop_0, <- Hsplit, join_split.
Qed.

(** ** More on the aggregator *)

Section MoreAggregator.

Variable E : env.
Implicit Types (idx : gmap string (gmap string string)) (a : agg) (w : world).

#[local] Instance by_label_total :
  Total (fun x y : string * string => String.le x.1 y.1).
Proof. intros x y. apply (total String.le). Qed.

#[local] Instance by_label_trans :
  Transitive (fun x y : string * string => String.le x.1 y.1).
Proof. intros x y z Hxy Hyz. by etrans. Qed.

(** X5. The links of a scraped symbol come in the order of their year
    labels, and no label comes twice. *)
Theorem scraped_links_sorted (symbol : string) (w w' : world)
    (links : list (string * string)) :
  scrape_links_for E symbol w = (Ok links, w') →
  StronglySorted (fun x y => String.le x.1 y.1) links ∧ NoDup links.*1.
Proof.
  intros Hrun. split; [|by eapply scrape_links_for_NoDup].
  destruct (link_page E (LINK_URL (encode_special_characters symbol)))
    as [anchors|e] eqn:Hpage.
  - rewrite (scrape_links_for_eq E _ _ _ Hpage) in Hrun.
    destruct (collect_links E anchors ∅) as [m|]; [|done].
    injection Hrun as <- _. unfold sorted_items.
    apply (StronglySorted_merge_sort _).
  - unfold scrape_links_for, get_link_anchors, bind, logger, sent in Hrun.
    simpl in Hrun. by rewrite Hpage in Hrun.
Qed.

Lemma scrape_links_for_raise (symbol : string) (w : world) (e : exn) :
  link_page E (LINK_URL (encode_special_characters symbol)) = Raise e →
  scrape_links_for E symbol w
  = (Raise e,
     set_net (net w ++ [GET (LINK_URL (encode_special_characters symbol))])
       (log_line INFO (ScrapingLinks symbol) w)).
Proof.
  intros Hpage. unfold scrape_links_for, get_link_anchors, bind, logger, sent.
  simpl. by rewrite Hpage.
Qed.

(** X6. When the page of a symbol cannot be fetched, the loop stops at
    that symbol with the exception of the fetch: the request was sent and
    the scrape logged, but the index, the counters and the disk are as
    they were, and the remaining symbols are not visited. *)
Theorem failed_fetch_stops_loop (force_update : bool) (fy raw : string)
    (rest : list string) (a : agg) (w : world) (e : exn) :
  must_scrape force_update fy (annual_report_links a) (Str.upper raw) = true →
  link_page E (LINK_URL (encode_special_characters (Str.upper raw))) = Raise e →
  ∃ w',
    aggregate_loop E force_update fy (raw :: rest) a w = (Some e, a, w') ∧
    same_disk w w' ∧
    log w' = log w ++ [(INFO, ScrapingLinks (Str.upper raw))] ∧
    net w' = net w ++ [GET (LINK_URL (encode_special_characters (Str.upper raw)))].
Proof.
  intros Hmust Hpage. cbn [aggregate_loop]. unfold aggregate_symbol.
  rewrite Hmust, (scrape_links_for_raise _ _ _ Hpage).
  eexists. split; [reflexivity|]. by repeat split.
Qed.

Lemma enter_symbol_frame symbol a w :
  let '(a0, w0) := enter_symbol symbol (a, w) in
  (∀ s, links_of (annual_report_links a0) s = links_of (annual_report_links a) s) ∧
  (∀ s, s ≠ symbol → annual_report_links a0 !! s = annual_report_links a !! s) ∧
  is_Some (annual_report_links a0 !! symbol) ∧
  links_added_for a0 = links_added_for a ∧
  links_modified_for a0 = links_modified_for a ∧
  same_disk w w0 ∧ net w0 = net w.
Proof.
  unfold enter_symbol. cbn -[links_of].
  destruct (bool_decide (is_Some (annual_report_links a !! symbol))) eqn:Hin.
  - apply bool_decide_eq_true in Hin. by repeat split.
  - apply bool_decide_eq_false in Hin.
    repeat split; try done.
    + intros s. unfold links_of. destruct (decide (s = symbol)) as [->|Hne].
      * rewrite lookup_insert_eq.
        destruct (annual_report_links a !! symbol) eqn:Hl; [|done].
        exfalso. apply Hin. by eexists.
      * by rewrite lookup_insert_ne.
    + intros s Hs. by rewrite lookup_insert_ne.
    + rewrite lookup_insert_eq. by eexists.
Qed.

Lemma merge_links_disk symbol l : ∀ a w,
  let '(a', w') := merge_links symbol l (a, w) in
  same_disk w w' ∧ net w' = net w ∧
  symbols_scraped a' = symbols_scraped a.
Proof.
  induction l as [|[y u] l IH]; intros a w; [by repeat split|].
  change (merge_links symbol ((y, u) :: l) (a, w))
    with (merge_links symbol l (merge_link symbol (a, w) (y, u))).
  assert (∃ a1 w1, merge_link symbol (a, w) (y, u) = (a1, w1) ∧
                   same_disk w w1 ∧ net w1 = net w ∧
                   symbols_scraped a1 = symbols_scraped a)
    as (a1 & w1 & -> & Hd & Hn & Hs).
  { unfold merge_link.
    destruct (links_of (annual_report_links a) symbol !! y) as [old|];
      [destruct (decide (old ≠ u))|]; do 2 eexists; by repeat split. }
  specialize (IH a1 w1). destruct (merge_links symbol l (a1, w1)) as [a' w'].
  destruct IH as (Hd' & Hn' & Hs').
  split; [by eapply same_disk_trans|]. split; congruence.
Qed.

(** One turn of the loop: what it keeps. *)
Lemma aggregate_symbol_keeps (force_update : bool) (fy raw : string) a w :
  let '(raised, a', w') := aggregate_symbol E force_update fy raw a w in
  (∀ s y, is_Some (links_of (annual_report_links a) s !! y) →
          is_Some (links_of (annual_report_links a') s !! y)) ∧
  (∀ s, s ≠ Str.upper raw →
        annual_report_links a' !! s = annual_report_links a !! s) ∧
  same_disk w w' ∧
  (symbols_scraped a' ≤ S (symbols_scraped a))%nat.
Proof.
  unfold aggregate_symbol.
  destruct (must_scrape _ _ _ _); [|by repeat split; try lia].
  destruct (scrape_links_for E (Str.upper raw) w) as [[l|e] w1] eqn:Hscrape.
  - pose proof (scrape_links_for_NoDup _ _ _ _ _ Hscrape) as Hnd.
    assert (same_disk w w1) as Hd1.
    { destruct (link_page E (LINK_URL (encode_special_characters (Str.upper raw))))
        as [anchors|e] eqn:Hpage.
      - rewrite (scrape_links_for_eq E _ _ _ Hpage) in Hscrape.
        injection Hscrape as _ <-. by destruct anchors.
      - rewrite (scrape_links_for_raise _ _ _ Hpage) in Hscrape. done. }
    pose proof (enter_symbol_frame (Str.upper raw) a w1) as Henter.
    pose proof (enter_symbol_spec (Str.upper raw) a w1) as Hcount.
    destruct (enter_symbol (Str.upper raw) (a, w1)) as [a0 w0].
    destruct Henter as (F1 & F2 & F3 & _ & _ & F6 & _).
    destruct Hcount as (_ & _ & _ & C4 & _).
    pose proof (merge_links_spec (Str.upper raw)
                  (links_of (annual_report_links a0) (Str.upper raw)) l a0 w0 Hnd)
      as Hmerge.
    pose proof (merge_links_disk (Str.upper raw) l a0 w0) as Hdisk.
    destruct (merge_links (Str.upper raw) l (a0, w0)) as [a' w'].
    destruct Hmerge as (M1 & M2 & M3 & _); [done|].
    destruct Hdisk as (D1 & _ & D3).
    repeat split.
    + intros s y Hsy. rewrite <- F1 in Hsy.
      destruct (decide (s = Str.upper raw)) as [->|Hne].
      * destruct (decide (y ∈ l.*1)) as [Hin|Hout].
        -- apply list_elem_of_fmap in Hin as ([y' u] & -> & Hin). simpl.
           rewrite (M1 _ _ Hin). by eexists.
        -- by rewrite M2.
      * unfold links_of in *. by rewrite M3.
    + intros s Hs. by rewrite M3, F2.
    + destruct Hd1 as (? & ? & ?), F6 as (? & ? & ?), D1 as (? & ? & ?). congruence.
    + destruct Hd1 as (? & ? & ?), F6 as (? & ? & ?), D1 as (? & ? & ?). congruence.
    + destruct Hd1 as (? & ? & ?), F6 as (? & ? & ?), D1 as (? & ? & ?). congruence.
    + lia.
  - repeat split; try done; try lia.
    all: destruct (link_page E (LINK_URL (encode_special_characters (Str.upper raw))))
        as [anchors|e'] eqn:Hpage;
      [rewrite (scrape_links_for_eq E _ _ _ Hpage) in Hscrape;
       injection Hscrape as _ <-; by destruct anchors
      |rewrite (scrape_links_for_raise _ _ _ Hpage) in Hscrape;
       by injection Hscrape as _ <-].
Qed.

Lemma aggregate_loop_keeps (force_update : bool) (fy : string)
    (symbols : list string) : ∀ a w,
  let '(raised, a', w') := aggregate_loop E force_update fy symbols a w in
  (∀ s y, is_Some (links_of (annual_report_links a) s !! y) →
          is_Some (links_of (annual_report_links a') s !! y)) ∧
  (∀ s, s ∉ Str.upper <$> symbols →
        annual_report_links a' !! s = annual_report_links a !! s) ∧
  same_disk w w' ∧
  (symbols_scraped a' ≤ symbols_scraped a + length symbols)%nat.
Proof.
  induction symbols as [|raw rest IH]; intros a w.
  - simpl. repeat split; try done. lia.
  - cbn [aggregate_loop].
    pose proof (aggregate_symbol_keeps force_update fy raw a w) as Hstep.
    destruct (aggregate_symbol E force_update fy raw a w) as [[[e|] a1] w1].
    + destruct Hstep as (K1 & K2 & K3 & K4).
      split; [done|]. split; [|split; [done|simpl; lia]].
      intros s Hs. apply K2. intros ->. apply Hs. rewrite fmap_cons. left.
    + destruct Hstep as (K1 & K2 & K3 & K4).
      specialize (IH a1 w1).
      destruct (aggregate_loop E force_update fy rest a1 w1) as [[r a'] w'].
      destruct IH as (L1 & L2 & L3 & L4).
      split; [|split; [|split]].
      * intros s y Hsy. by apply L1, K1.
      * intros s Hs. rewrite fmap_cons in Hs.
        apply not_elem_of_cons in Hs as [Hne Hs]. by rewrite L2, K2.
      * by eapply same_disk_trans.
      * simpl. lia.
Qed.

(** A run of [aggregate_links], seen from its loop. *)
Lemma aggregate_links_run (symbol_file : string) (force_update : bool)
    (offset : Z) (w : world) :
  let symbols :=
    slice_from offset
      (filter (fun s => s ≠ EmptyString) (default [] (symbol_lines E symbol_file))) in
  ∃ w0 raised a w1 result w',
    same_disk w w0 ∧ net w0 = net w ∧
    aggregate_loop E force_update (get_latest_financial_year E) symbols
      (start_agg (default ∅ (json_file w))) w0 = (raised, a, w1) ∧
    aggregate_links E symbol_file force_update offset w = (result, w') ∧
    result = match raised with Some e => Raise e | None => Ok tt end ∧
    json_file w' = Some (annual_report_links a) ∧
    files w' = files w1 ∧ dirs w' = dirs w1 ∧ net w' = net w1.
Proof.
  intros symbols.
  unfold aggregate_links, bind, read_json, read_symbol_file, logger, ret, bind.
  destruct (symbol_lines E symbol_file) as [lines|];
    cbn -[aggregate_loop slice_from filter get_latest_financial_year];
    match goal with |- context [aggregate_loop ?E0 ?f ?y ?l ?a0 ?w0] =>
      destruct (aggregate_loop E0 f y l a0 w0) as [[raised a] w1] eqn:Hloop;
      exists w0, raised, a, w1
    end;
    destruct raised as [e|]; cbn; do 2 eexists;
    (split; [by repeat split|]); (split; [done|]); (split; [exact Hloop|]);
    by repeat split.
Qed.

(** X7. Aggregation never loses a link: whatever the run does, and also
    when an exception ends it, every symbol and year that had a URL in the
    JSON file before the run has one in the file the run leaves (the URL
    may be a newer one). *)
Theorem aggregate_keeps_links (symbol_file : string) (force_update : bool)
    (offset : Z) (w : world) (symbol year : string) :
  is_Some (links_of (default ∅ (json_file w)) symbol !! year) →
  ∃ idx',
    json_file (aggregate_links E symbol_file force_update offset w).2 = Some idx' ∧
    is_Some (links_of idx' symbol !! year).
Proof.
  intros Hhad.
  destruct (aggregate_links_run symbol_file force_update offset w)
    as (w0 & raised & a & w1 & result & w' & _ & _ & Hloop & -> & _ & Hjson & _).
  exists (annual_report_links a). split; [done|].
  pose proof (aggregate_loop_keeps force_update (get_latest_financial_year E)
                (slice_from offset
                   (filter (fun s => s ≠ EmptyString)
                      (default [] (symbol_lines E symbol_file))))
                (start_agg (default ∅ (json_file w))) w0) as Hkeep.
  rewrite Hloop in Hkeep. destruct Hkeep as (K & _). by apply K.
Qed.

(** X8. Aggregation changes the entries of the symbols it visits and
    nothing else: a symbol that is not the upper-case form of a line of the
    symbol file past the offset has in the new JSON file the entry it had,
    and the files and directories of the download tree are untouched. *)
Theorem aggregate_touches_listed_only (symbol_file : string)
    (force_update : bool) (offset : Z) (w : world) :
  let symbols :=
    slice_from offset
      (filter (fun s => s ≠ EmptyString) (default [] (symbol_lines E symbol_file))) in
  let w' := (aggregate_links E symbol_file force_update offset w).2 in
  files w' = files w ∧ dirs w' = dirs w ∧
  ∃ idx',
    json_file w' = Some idx' ∧
    ∀ s, s ∉ Str.upper <$> symbols → idx' !! s = default ∅ (json_file w) !! s.
Proof.
  intros symbols.
  destruct (aggregate_links_run symbol_file force_update offset w)
    as (w0 & raised & a & w1 & result & w' & Hd0 & _ & Hloop & -> & _ & Hjson
        & Hfiles & Hdirs & _).
  pose proof (aggregate_loop_keeps force_update (get_latest_financial_year E)
                symbols (start_agg (default ∅ (json_file w))) w0) as Hkeep.
  fold symbols in Hloop. rewrite Hloop in Hkeep.
  destruct Hkeep as (_ & K2 & K3 & _). cbn [snd].
  destruct Hd0 as (? & ? & _), K3 as (? & ? & _).
  split; [congruence|]. split; [congruence|].
  exists (annual_report_links a). split; [done|]. exact K2.
Qed.

Lemma merge_link_counts (names : list string) symbol a w item :
  symbol ∈ names → counts_agree names a →
  counts_agree names (merge_link symbol (a, w) item).1.
Proof.
  intros Hin (C1 & C2 & C3 & C4). destruct item as [y u]. unfold merge_link.
  destruct (links_of (annual_report_links a) symbol !! y) as [old|];
    [destruct (decide (old ≠ u))|]; cbn -[links_of]; unfold counts_agree;
    cbn -[links_of].
  - split; [done|]. split; [rewrite length_app; simpl; lia|].
    split; [done|]. apply Forall_app. split; [done|]. by apply Forall_singleton.
  - by repeat split.
  - split; [rewrite length_app; simpl; lia|]. split; [done|].
    split; [|done]. apply Forall_app. split; [done|]. by apply Forall_singleton.
Qed.

Lemma merge_links_counts (names : list string) symbol l : ∀ a w,
  symbol ∈ names → counts_agree names a →
  counts_agree names (merge_links symbol l (a, w)).1.
Proof.
  induction l as [|item l IH]; intros a w Hin Hc; [done|].
  change (merge_links symbol (item :: l) (a, w))
    with (merge_links symbol l (merge_link symbol (a, w) item)).
  pose proof (merge_link_counts names symbol a w item Hin Hc) as Hstep.
  destruct (merge_link symbol (a, w) item) as [a1 w1]. by apply IH.
Qed.

Lemma aggregate_symbol_counts (names : list string) (force_update : bool)
    (fy raw : string) a w :
  Str.upper raw ∈ names → counts_agree names a →
  counts_agree names (aggregate_symbol E force_update fy raw a w).1.2.
Proof.
  intros Hin Hc. unfold aggregate_symbol.
  destruct (must_scrape _ _ _ _); [|done].
  destruct (scrape_links_for E (Str.upper raw) w) as [[l|e] w1]; [|done].
  pose proof (enter_symbol_frame (Str.upper raw) a w1) as Henter.
  pose proof (enter_symbol_spec (Str.upper raw) a w1) as Hcount.
  destruct (enter_symbol (Str.upper raw) (a, w1)) as [a0 w0].
  destruct Henter as (_ & _ & _ & F4 & F5 & _).
  destruct Hcount as (_ & C2 & C3 & _).
  assert (counts_agree names a0) as Hc0.
  { destruct Hc as (? & ? & ? & ?). unfold counts_agree.
    rewrite C2, C3, F4, F5. by repeat split. }
  pose proof (merge_links_counts names (Str.upper raw) l a0 w0 Hin Hc0) as Hm.
  by destruct (merge_links (Str.upper raw) l (a0, w0)) as [a' w'].
Qed.

Lemma aggregate_loop_counts (names : list string) (force_update : bool)
    (fy : string) (symbols : list string) : ∀ a w,
  (∀ raw, raw ∈ symbols → Str.upper raw ∈ names) → counts_agree names a →
  counts_agree names (aggregate_loop E force_update fy symbols a w).1.2.
Proof.
  induction symbols as [|raw rest IH]; intros a w Hsub Hc; [done|].
  cbn [aggregate_loop].
  pose proof (aggregate_symbol_counts names force_update fy raw a w) as Hstep.
  destruct (aggregate_symbol E force_update fy raw a w) as [[[e|] a1] w1].
  - apply Hstep; [apply Hsub; left|done].
  - apply IH.
    + intros r Hr. apply Hsub. by right.
    + apply Hstep; [apply Hsub; left|done].
Qed.

(** X9. The counts the summary logs are those of its lists: when the
    loop stops, for whatever reason, the number of links added is the
    length of the list of symbols links were added for, likewise for the
    links modified, both lists hold only upper-cased symbols of the file,
    and no more symbols were scraped than the file has. *)
Theorem summary_counts_agree (force_update : bool) (fy : string)
    (symbols : list string) (idx : gmap string (gmap string string)) (w : world) :
  let a := (aggregate_loop E force_update fy symbols (start_agg idx) w).1.2 in
  links_added a = length (links_added_for a) ∧
  links_modified a = length (links_modified_for a) ∧
  Forall (fun s => s ∈ Str.upper <$> symbols) (links_added_for a) ∧
  Forall (fun s => s ∈ Str.upper <$> symbols) (links_modified_for a) ∧
  (symbols_scraped a ≤ length symbols)%nat.
Proof.
  intros a.
  assert (counts_agree (Str.upper <$> symbols) a) as (C1 & C2 & C3 & C4).
  { apply aggregate_loop_counts.
    - intros raw Hraw. by apply list_elem_of_fmap_2.
    - by repeat split. }
  repeat split; try done.
  pose proof (aggregate_loop_keeps force_update fy symbols (start_agg idx) w) as Hk.
  unfold a. destruct (aggregate_loop E force_update fy symbols (start_agg idx) w)
    as [[r a'] w']. destruct Hk as (_ & _ & _ & Hs). simpl in *. lia.
Qed.

Lemma merge_links_same symbol l : ∀ a w,
  (∀ y u, (y, u) ∈ l →
     links_of (annual_report_links a) symbol !! y = Some u) →
  merge_links symbol l (a, w) = (a, w).
Proof.
  induction l as [|[y u] l IH]; intros a w Hall; [done|].
  change (merge_links symbol ((y, u) :: l) (a, w))
    with (merge_links symbol l (merge_link symbol (a, w) (y, u))).
  assert (merge_link symbol (a, w) (y, u) = (a, w)) as ->.
  { unfold merge_link. rewrite (Hall y u) by left.
    by rewrite decide_False by (intros ?; done). }
  apply IH. intros y' u' Hin. apply Hall. by right.
Qed.

Lemma scrape_links_for_result (symbol : string) (w w2 : world) :
  (scrape_links_for E symbol w2).1 = (scrape_links_for E symbol w).1 ∧
  same_disk w2 (scrape_links_for E symbol w2).2.
Proof.
  destruct (link_page E (LINK_URL (encode_special_characters symbol)))
    as [anchors|e] eqn:Hpage.
  - rewrite !(scrape_links_for_eq E _ _ _ Hpage). split; [done|].
    by destruct anchors.
  - by rewrite !(scrape_links_for_raise _ _ _ Hpage).
Qed.

(** X10. Scraping a symbol again changes nothing: after a turn that
    scraped and merged a symbol, another turn for it, forced or not and
    from any world, leaves the index, the two counters of links and their
    lists as they are, and does not touch the disk. *)
Theorem rescrape_changes_nothing (force1 force2 : bool) (fy raw : string)
    (a a1 : agg) (w w1 w2 : world) :
  must_scrape force1 fy (annual_report_links a) (Str.upper raw) = true →
  aggregate_symbol E force1 fy raw a w = (None, a1, w1) →
  ∃ a2 w3,
    aggregate_symbol E force2 fy raw a1 w2 = (None, a2, w3) ∧
    annual_report_links a2 = annual_report_links a1 ∧
    links_added a2 = links_added a1 ∧
    links_modified a2 = links_modified a1 ∧
    links_added_for a2 = links_added_for a1 ∧
    links_modified_for a2 = links_modified_for a1 ∧
    same_disk w2 w3.
Proof.
  intros Hmust Hfirst. unfold aggregate_symbol in Hfirst. rewrite Hmust in Hfirst.
  destruct (scrape_links_for E (Str.upper raw) w) as [[l|e] w0] eqn:Hscrape;
    [|done].
  pose proof (scrape_links_for_NoDup _ _ _ _ _ Hscrape) as Hnd.
  pose proof (enter_symbol_frame (Str.upper raw) a w0) as Henter.
  destruct (enter_symbol (Str.upper raw) (a, w0)) as [a0 w0'].
  destruct Henter as (_ & _ & F3 & _).
  pose proof (merge_links_spec (Str.upper raw)
                (links_of (annual_report_links a0) (Str.upper raw)) l a0 w0' Hnd)
    as Hmerge.
  destruct (merge_links (Str.upper raw) l (a0, w0')) as [a' w'].
  destruct Hmerge as (M1 & _ & _ & M4 & _); [done|].
  injection Hfirst as <- <-.
  unfold aggregate_symbol.
  destruct (must_scrape force2 fy (annual_report_links a') (Str.upper raw));
    [|do 2 eexists; split; [reflexivity|]; by repeat split].
  destruct (scrape_links_for_result (Str.upper raw) w w2) as [Hres Hdisk].
  rewrite Hscrape in Hres.
  destruct (scrape_links_for E (Str.upper raw) w2) as [res w2'].
  simpl in Hres, Hdisk. subst res.
  unfold enter_symbol. rewrite bool_decide_eq_true_2 by by apply M4.
  rewrite merge_links_same by (cbn -[links_of]; exact M1).
  do 2 eexists. split; [reflexivity|]. cbn.
  do 5 (split; [done|]). exact Hdisk.
Qed.

Lemma isascii_app (a b : string) :
  Str.isascii (a +:+ b) = Str.isascii a && Str.isascii b.
Proof.
  induction a as [|c a IH]; [done|].
  rewrite StrFacts.app_cons. cbn [Str.isascii]. rewrite IH.
  by rewrite andb_assoc.
Qed.

(** The label of a text with a character outside ASCII has that
    character too. *)
Lemma anchor_year_not_ascii (text y : string) :
  Str.isascii text = false → anchor_year E text = Ok y → Str.isascii y = false.
Proof.
  intros Hascii. unfold anchor_year. rewrite Hascii.
  destruct (text_year E text) as [[n|]|]; [|done|by intros [= <-]].
  intros [= <-]. by rewrite isascii_app, Hascii.
Qed.

Lemma latest_year_ascii :
  (1001 ≤ today_year E ≤ 10000)%Z →
  Str.isascii (get_latest_financial_year E) = true.
Proof.
  intros Hyear. unfold get_latest_financial_year.
  rewrite !isascii_app.
  rewrite (isascii_four_digits (Str.str (today_year E - 1)) (today_year E - 1))
    by (apply str_four_digits; lia).
  destruct (decide (today_year E = 10000)) as [->|Hne]; [done|].
  by rewrite (isascii_four_digits (Str.str (today_year E)) (today_year E))
    by (apply str_four_digits; lia).
Qed.

(** X18. A symbol whose page lists last year is skipped from then on:
    when the current year has four digits and the page has an anchor whose
    text is the number of the year before (and no later anchor with the
    same label), a turn that scrapes the symbol stores a URL under the
    latest financial year, and every later turn without [force_update]
    leaves the symbol alone and sends nothing. *)
Theorem scraped_symbol_is_skipped (force_update : bool) (raw : string)
    (a a1 : agg) (w w1 : world) (pre post : list anchor) (item : anchor) :
  let fy := get_latest_financial_year E in
  (1001 ≤ today_year E ≤ 10000)%Z →
  link_page E (LINK_URL (encode_special_characters (Str.upper raw)))
    = Ok (pre ++ item :: post) →
  text item = Str.str (today_year E - 1) →
  Forall (fun later => year_label (text later) ≠ year_label (text item)) post →
  must_scrape force_update fy (annual_report_links a) (Str.upper raw) = true →
  aggregate_symbol E force_update fy raw a w = (None, a1, w1) →
  has_url (annual_report_links a1) (Str.upper raw) fy ∧
  ∀ w2, aggregate_symbol E false fy raw a1 w2 = (None, a1, w2).
Proof.
  intros fy Hyear Hpage Htext Hpost Hmust Hrun.
  assert (year_label (text item) = fy) as Hlabel.
  { rewrite Htext. unfold fy, get_latest_financial_year.
    rewrite (year_label_four_digits _ (today_year E - 1))
      by (apply str_four_digits; lia).
    by replace (today_year E - 1 + 1)%Z with (today_year E) by lia. }
  assert (anchor_year E (text item) = Ok fy) as Hitem.
  { rewrite anchor_year_ascii; [by rewrite Hlabel|].
    rewrite Htext.
    apply (isascii_four_digits _ (today_year E - 1)), str_four_digits. lia. }
  assert (Forall (fun later => anchor_year E (text later) ≠ Ok fy) post) as Hlater.
  { eapply Forall_impl; [exact Hpost|]. intros later Hne Heq. simpl in Hne.
    destruct (Str.isascii (text later)) eqn:Hascii.
    - rewrite anchor_year_ascii in Heq by done. injection Heq as Heq.
      apply Hne. by rewrite Hlabel.
    - apply (anchor_year_not_ascii _ _ Hascii) in Heq.
      unfold fy in Heq. by rewrite latest_year_ascii in Heq. }
  unfold aggregate_symbol in Hrun. rewrite Hmust in Hrun.
  rewrite (scrape_links_for_eq E _ _ _ Hpage) in Hrun.
  destruct (collect_links E (pre ++ item :: post) ∅) as [m|] eqn:Hm; [|done].
  destruct (collect_links_stored E _ _ _ _ _ Hm) as (y & h & Hy & _ & Hstored).
  rewrite Hitem in Hy. injection Hy as <-.
  specialize (Hstored Hlater). apply elem_of_sorted_items in Hstored.
  pose proof (enter_symbol_frame (Str.upper raw) a
                (scraping (Str.upper raw) (pre ++ item :: post) w)) as Henter.
  destruct (enter_symbol (Str.upper raw) (a, _)) as [a0 w0].
  destruct Henter as (_ & _ & F3 & _).
  pose proof (merge_links_spec (Str.upper raw)
                (links_of (annual_report_links a0) (Str.upper raw))
                (sorted_items m) a0 w0 (NoDup_sorted_items m)) as Hmerge.
  destruct (merge_links (Str.upper raw) (sorted_items m) (a0, w0)) as [a' w'].
  destruct Hmerge as (M1 & _ & _ & M4 & _); [done|].
  injection Hrun as <- <-.
  assert (has_url (annual_report_links a') (Str.upper raw) fy) as Hurl.
  { destruct (M4 F3) as [links Hlinks]. exists links, (REPORT_URL +:+ h).
    split; [done|]. split.
    - specialize (M1 _ _ Hstored). unfold links_of in M1. by rewrite Hlinks in M1.
    - unfold REPORT_URL. by rewrite StrFacts.app_cons. }
  split; [done|]. intros w2. unfold aggregate_symbol.
  by rewrite must_scrape_has_url.
Qed.

End MoreAggregator.

Lemma scraped_links_sorted_witness :
  ∃ links, (scrape_links_for Demo.site "TCS" Demo.fresh).1 = Ok links ∧
           NoDup links.*1.
Proof.
  eexists. split; [reflexivity|].
  exact (proj2 (scraped_links_sorted Demo.site "TCS" Demo.fresh _ _ eq_refl)).
Defined.

Lemma failed_fetch_stops_loop_witness :
  ∃ w', aggregate_loop Demo.site false "2023-2024" ["acc"; "tcs"]
          (start_agg ∅) Demo.fresh
        = (Some ConnectionError, start_agg ∅, w') ∧
        net w' = [GET (LINK_URL "ACC")].
Proof.
  destruct (failed_fetch_stops_loop Demo.site false "2023-2024" "acc" ["tcs"]
              (start_agg ∅) Demo.fresh ConnectionError)
    as (w' & Hrun & _ & _ & Hnet); [by vm_compute | reflexivity |].
  exists w'. split; [exact Hrun|exact Hnet].
Defined.

Lemma aggregate_keeps_links_witness :
  ∃ idx',
    json_file (aggregate_links Demo.site "download_symbols.txt" true 0
                 Demo.indexed).2 = Some idx' ∧
    is_Some (links_of idx' "TCS" !! "2022-2023").
Proof.
  apply (aggregate_keeps_links Demo.site "download_symbols.txt" true 0
           Demo.indexed "TCS" "2022-2023").
  eexists. reflexivity.
Defined.

Lemma rescrape_changes_nothing_witness :
  ∃ a1 w1 a2 w3,
    aggregate_symbol Demo.site true "2023-2024" "tcs" (start_agg Demo.index)
      Demo.fresh = (None, a1, w1) ∧
    aggregate_symbol Demo.site false "2023-2024" "tcs" a1 w1 = (None, a2, w3) ∧
    annual_report_links a2 = annual_report_links a1 ∧
    links_added a2 = links_added a1.
Proof.
  destruct (aggregate_symbol Demo.site true "2023-2024" "tcs"
              (start_agg Demo.index) Demo.fresh) as [[r a1] w1] eqn:Hfirst.
  assert (r = None) as -> by (by vm_compute in Hfirst; injection Hfirst as <- _ _).
  destruct (rescrape_changes_nothing Demo.site true false "2023-2024" "tcs"
              (start_agg Demo.index) a1 Demo.fresh w1 w1 eq_refl Hfirst)
    as (a2 & w3 & Hsecond & Hidx & Hadd & _).
  exists a1, w1, a2, w3. by repeat split.
Defined.

(** X12. The offset selects a suffix of the symbols.  An offset at or
    past the end selects none; a negative offset selects the last
    [- offset] symbols, all of them when there are fewer. *)
Theorem offset_selects_suffix {A} (offset : Z) (l : list A) :
  slice_from offset l `suffix_of` l ∧
  ((Z.of_nat (length l) ≤ offset)%Z → slice_from offset l = []) ∧
  ((offset < 0)%Z →
   length (slice_from offset l) = Nat.min (length l) (Z.to_nat (- offset))) ∧
  ((offset ≤ - Z.of_nat (length l))%Z → slice_from offset l = l).
Proof.
  unfold slice_from. destruct (offset <? 0)%Z eqn:Hneg.
  - apply Z.ltb_lt in Hneg. repeat split.
    + apply suffix_drop.
    + lia.
    + intros _. rewrite length_drop. lia.
    + intros Hall. replace (Z.to_nat (Z.of_nat (length l) + offset)) with 0%nat by lia.
      apply drop_0.
  - apply Z.ltb_ge in Hneg. repeat split.
    + apply suffix_drop.
    + intros Hpast. apply drop_ge. lia.
    + lia.
    + intros Hall. replace (Z.to_nat offset) with 0%nat by lia. apply drop_0.
Qed.

(** ** More on the downloader *)

Section MoreDownloader.

Variable E : env.
Implicit Types (idx : gmap string (gmap string string)) (w : world).

(** A run of [download_reports], seen from its loop. *)
Lemma download_reports_run (symbol_file fy base : string)
    (simulate size_only rename_existing : bool) (offset : Z) (w : world) :
  let symbols :=
    slice_from offset
      (filter (fun s => s ≠ EmptyString) (default [] (symbol_lines E symbol_file))) in
  ∃ w0,
    same_disk w w0 ∧ net w0 = net w ∧ stdout w0 = stdout w ∧
    download_reports E symbol_file fy base simulate size_only rename_existing
      offset w
    = match download_loop E fy (path_join base fy) simulate size_only
              rename_existing (default ∅ (json_file w)) symbols 0 w0 with
      | (Ok total_size, w1) =>
          (Ok tt,
           log_line INFO DownloadingFinished
             (if size_only then log_line INFO (TotalSize total_size) w1 else w1))
      | (Raise e, w1) => (Raise e, w1)
      end.
Proof.
  intros symbols. subst symbols.
  unfold download_reports, bind, read_json, read_symbol_file, logger, ret, bind.
  destruct (symbol_lines E symbol_file) as [lines|];
    cbn -[download_loop slice_from filter];
    match goal with |- context [download_loop ?E0 ?y ?l ?s ?z ?r ?i ?sy ?t ?w0] =>
      exists w0; (split; [by repeat split|]); (split; [done|]); (split; [done|]);
      destruct (download_loop E0 y l s z r i sy t w0) as [[total|e] w1] eqn:Hloop
    end;
    try done; by destruct size_only.
Qed.

(** A turn for a symbol without a URL for the year. *)
Lemma download_symbol_nothing (fy loc : string)
    (simulate size_only rename_existing : bool) idx (raw : string) (total : Z) w :
  (∀ links, get_links idx (Str.upper raw) = Some links → get_url links fy = None) →
  ∃ line,
    download_symbol E fy loc simulate size_only rename_existing idx raw total w
    = (Ok total, log_line line.1 line.2 w) ∧
    (line = (WARNING, NoLinksAvailable (Str.upper raw)) ∨
     line = (DEBUG, NoReportAvailable (Str.upper raw) fy)).
Proof.
  intros Hnone. unfold download_symbol.
  destruct (get_links idx (Str.upper raw)) as [links|].
  - rewrite (Hnone links eq_refl). eexists (_, _). split; [reflexivity|]. by right.
  - eexists (_, _). split; [reflexivity|]. by left.
Qed.

(** X13. When no symbol of the file has a URL for the requested year
    (the symbol is not in the index, or has no link for that year, or the
    symbol file or the JSON file is missing), the download sends no
    request, writes nothing to disk or to standard output, and ends
    normally. *)
Theorem nothing_to_download (symbol_file fy base : string)
    (simulate size_only rename_existing : bool) (offset : Z) (w : world) :
  let symbols :=
    slice_from offset
      (filter (fun s => s ≠ EmptyString) (default [] (symbol_lines E symbol_file))) in
  (∀ raw links, raw ∈ symbols →
     get_links (default ∅ (json_file w)) (Str.upper raw) = Some links →
     get_url links fy = None) →
  ∃ w',
    download_reports E symbol_file fy base simulate size_only rename_existing
      offset w = (Ok tt, w') ∧
    net w' = net w ∧ same_disk w w' ∧ stdout w' = stdout w.
Proof.
  intros symbols Hnone.
  destruct (download_reports_run symbol_file fy base simulate size_only
              rename_existing offset w) as (w0 & Hd0 & Hn0 & Hs0 & ->).
  fold symbols.
  assert (∀ total w1,
            ∃ w2, download_loop E fy (path_join base fy) simulate size_only
                    rename_existing (default ∅ (json_file w)) symbols total w1
                  = (Ok total, w2) ∧
                  net w2 = net w1 ∧ same_disk w1 w2 ∧ stdout w2 = stdout w1)
    as Hloop.
  { clearbody symbols. induction symbols as [|raw rest IH]; intros total w1.
    - exists w1. by repeat split.
    - cbn [download_loop]. unfold bind.
      destruct (download_symbol_nothing fy (path_join base fy) simulate size_only
                  rename_existing (default ∅ (json_file w)) raw total w1)
        as (line & -> & _).
      { intros links. apply Hnone. left. }
      destruct (IH (fun r l Hr => Hnone r l (list_elem_of_further _ _ _ Hr))
                  total (log_line line.1 line.2 w1))
        as (w2 & -> & Hn & Hd & Hs).
      exists w2. split; [done|]. split; [done|]. split; [|done].
      eapply same_disk_trans; [|exact Hd]. by repeat split. }
  destruct (Hloop 0%Z w0) as (w2 & -> & Hn & Hd & Hs).
  eexists. split; [reflexivity|].
  destruct Hd0 as (? & ? & ?), Hd as (? & ? & ?).
  destruct size_only; unfold same_disk, log_line; cbn; repeat split; congruence.
Qed.

Lemma download_symbol_size_only (fy loc : string) (simulate : bool) idx
    (raw : string) (total : Z) w :
  let w' := (download_symbol E fy loc simulate true false idx raw total w).2 in
  same_disk w w' ∧ stdout w' = stdout w ∧
  ∃ sent, net w' = net w ++ sent ∧ Forall is_head sent.
Proof.
  assert (∀ w1 : world,
            same_disk w w1 → stdout w1 = stdout w → net w1 = net w →
            same_disk w w1 ∧ stdout w1 = stdout w ∧
            ∃ sent, net w1 = net w ++ sent ∧ Forall is_head sent) as Hnil.
  { intros w1 ? ? ->. do 2 (split; [done|]). exists []. by rewrite app_nil_r. }
  unfold download_symbol. cbv zeta.
  destruct (get_links idx (Str.upper raw)) as [links|];
    [|by apply Hnil; repeat split].
  destruct (get_url links fy) as [url|]; [|by apply Hnil; repeat split].
  unfold bind, os_path_exists, logger, ret.
  destruct (_ || _); [by apply Hnil; repeat split|].
  unfold get_download_size, bind, sent, header_value, logger, ret, raise.
  destruct (http_head E url) as [[[n|]|]|e]; cbn;
    (split; [by repeat split|]); (split; [done|]);
    exists [HEAD url]; by repeat constructor.
Qed.

Lemma download_loop_size_only (fy loc : string) (simulate : bool) idx
    (symbols : list string) : ∀ (total : Z) w,
  let w' := (download_loop E fy loc simulate true false idx symbols total w).2 in
  same_disk w w' ∧ stdout w' = stdout w ∧
  ∃ sent, net w' = net w ++ sent ∧ Forall is_head sent.
Proof.
  induction symbols as [|raw rest IH]; intros total w.
  - split; [by repeat split|]. split; [done|]. exists []. by rewrite app_nil_r.
  - cbn [download_loop]. unfold bind.
    pose proof (download_symbol_size_only fy loc simulate idx raw total w) as Hstep.
    destruct (download_symbol E fy loc simulate true false idx raw total w)
      as [[total'|e] w1]; [|exact Hstep].
    destruct Hstep as (Hd & Hs & sent1 & Hn & Hh).
    destruct (IH total' w1) as (Hd' & Hs' & sent2 & Hn' & Hh').
    split; [by eapply same_disk_trans|]. split; [cbn in *; congruence|].
    exists (sent1 ++ sent2). split.
    + cbn in *. by rewrite Hn', Hn, <- app_assoc.
    + by apply Forall_app.
Qed.

(** X14. A run that only shows the download sizes reads and never
    writes: whether simulated or not, and also when an exception ends it,
    it leaves the files, the directories and the JSON file as they were,
    writes nothing to standard output, and every request it sends is a
    HEAD request. *)
Theorem size_only_reads_only (symbol_file fy base : string) (simulate : bool)
    (offset : Z) (w : world) :
  let w' := (download_reports E symbol_file fy base simulate true false offset w).2 in
  same_disk w w' ∧ stdout w' = stdout w ∧
  ∃ sent, net w' = net w ++ sent ∧ Forall is_head sent.
Proof.
  destruct (download_reports_run symbol_file fy base simulate true false offset w)
    as (w0 & Hd0 & Hn0 & Hs0 & ->).
  match goal with |- context [download_loop ?E0 ?y ?l ?s ?z ?r ?i ?sy ?t w0] =>
    pose proof (download_loop_size_only y l s i sy t w0) as Hloop;
    destruct (download_loop E0 y l s z r i sy t w0) as [[total|e] w1]
  end;
    destruct Hloop as (Hd & Hs & sent & Hn & Hh); cbn in *;
    (split; [eapply same_disk_trans; [exact Hd0|];
             destruct Hd as (? & ? & ?); by repeat split|]);
    (split; [congruence|]); exists sent; (split; [congruence|done]).
Qed.

Lemma download_symbol_rename (fy loc : string) (simulate size_only : bool) idx
    (raw : string) (total : Z) w :
  ∃ w', download_symbol E fy loc simulate size_only true idx raw total w
        = (Ok total, w') ∧
        net w' = net w ∧ json_file w' = json_file w ∧ stdout w' = stdout w.
Proof.
  unfold download_symbol.
  destruct (get_links idx (Str.upper raw)) as [links|]; [|by eexists].
  destruct (get_url links fy) as [url|]; [|by eexists].
  unfold bind, os_path_exists, logger, ret, os_rename, raise.
  destruct (path_exists _ w); [|by eexists].
  destruct simulate; cbn [negb]; [by eexists|].
  destruct (rename_fails E _ _); eexists; (split; [reflexivity|]);
    try done.
  unfold move. cbn. destruct (files w !! _); [done|]. by case_bool_decide.
Qed.

(** X15. A run that renames the existing reports works on the disk
    alone and always ends normally: it sends no request, leaves the JSON
    file and the standard output as they were, and a rename that fails
    does not end it. *)
Theorem rename_mode_is_offline (symbol_file fy base : string)
    (simulate size_only : bool) (offset : Z) (w : world) :
  ∃ w',
    download_reports E symbol_file fy base simulate size_only true offset w
    = (Ok tt, w') ∧
    net w' = net w ∧ json_file w' = json_file w ∧ stdout w' = stdout w.
Proof.
  destruct (download_reports_run symbol_file fy base simulate size_only true
              offset w) as (w0 & Hd0 & Hn0 & Hs0 & ->).
  assert (∀ symbols total w1,
            ∃ total' w2,
              download_loop E fy (path_join base fy) simulate size_only true
                (default ∅ (json_file w)) symbols total w1 = (Ok total', w2) ∧
              net w2 = net w1 ∧ json_file w2 = json_file w1 ∧
              stdout w2 = stdout w1) as Hloop.
  { induction symbols as [|raw rest IH]; intros total w1.
    - exists total, w1. by repeat split.
    - cbn [download_loop]. unfold bind.
      destruct (download_symbol_rename fy (path_join base fy) simulate size_only
                  (default ∅ (json_file w)) raw total w1)
        as (w1' & -> & Hn & Hj & Hs).
      destruct (IH total w1') as (total' & w2 & -> & Hn' & Hj' & Hs').
      exists total', w2. split; [done|]. repeat split; congruence. }
  match goal with |- context [download_loop _ _ _ _ _ _ _ ?sy ?t w0] =>
    destruct (Hloop sy t w0) as (total' & w2 & -> & Hn & Hj & Hs)
  end.
  destruct Hd0 as (_ & _ & Hj0).
  eexists. split; [reflexivity|].
  destruct size_only; unfold log_line; cbn; repeat split; congruence.
Qed.

(** X16. A download that fails before the transfer starts leaves no
    file: when the GET itself raises, or the response is OK but its
    Content-Length is not an integer (ValueError), [download_to_save]
    raises after the request with the files and the log as they were: no
    temporary file is created. *)
Theorem failed_before_transfer (url loc : string) (w : world) (e : exn) :
  loc ≠ EmptyString →
  (http_get E url = Raise e ∨
   ∃ r, http_get E url = Ok r ∧ ok r = true ∧
        content_length r = Some None ∧ e = ValueError) →
  ∃ w',
    download_to_save E url loc w = (Raise e, w') ∧
    files w' = files w ∧ log w' = log w ∧ stdout w' = stdout w ∧
    net w' = net w ++ [GET url].
Proof.
  intros Hloc Hfail.
  unfold download_to_save, bind, makedirs, sent.
  rewrite decide_False by done.
  destruct Hfail as [->|(r & -> & Hok & Hlen & ->)].
  - eexists. split; [reflexivity|]. by repeat split.
  - rewrite Hok, Hlen. eexists. split; [reflexivity|]. by repeat split.
Qed.



End MoreDownloader.

Lemma scraped_symbol_is_skipped_witness :
  has_url
    (annual_report_links
       (aggregate_symbol Demo.site false "2023-2024" "tcs" (start_agg ∅)
          Demo.fresh).1.2)
    "TCS" "2023-2024".
Proof.
  destruct (aggregate_symbol Demo.site false "2023-2024" "tcs" (start_agg ∅)
              Demo.fresh) as [[r a1] w1] eqn:Hrun.
  assert (r = None) as -> by (by vm_compute in Hrun; injection Hrun as <- _ _).
  refine (proj1 (scraped_symbol_is_skipped Demo.site false "tcs" (start_agg ∅) a1
                   Demo.fresh w1
                   [ {| text := "2022"; href := Some Demo.tcs_2022 |};
                     {| text := "Annual Report";
                        href := Some "/annual_reports/other.zip" |} ]
                   []
                   {| text := "2023"; href := Some Demo.tcs_2023 |}
                   _ eq_refl eq_refl (Forall_nil_2 _) _ Hrun)).
  - simpl. lia.
  - by vm_compute.
Defined.

Lemma nothing_to_download_witness :
  ∃ w', download_reports Demo.site "download_symbols.txt" "2021-2022" "reports"
          false false false 0 (set_json (Some Demo.scraped) Demo.fresh)
        = (Ok tt, w') ∧ net w' = [].
Proof.
  destruct (nothing_to_download Demo.site "download_symbols.txt" "2021-2022"
              "reports" false false false 0
              (set_json (Some Demo.scraped) Demo.fresh))
    as (w' & Hrun & Hnet & _).
  - intros raw links Hraw Hlinks. apply list_elem_of_In in Hraw. simpl in Hraw.
    destruct Hraw as [<-|[<-|[]]]; vm_compute in Hlinks;
      injection Hlinks as <-; by vm_compute.
  - exists w'. split; [exact Hrun|exact Hnet].
Defined.

Lemma failed_before_transfer_witness :
  ∃ w', download_to_save garbled_site (REPORT_URL +:+ Demo.tcs_2023)
          "reports/2023-2024" Demo.fresh = (Raise ValueError, w') ∧
        files w' = ∅.
Proof.
  destruct (failed_before_transfer garbled_site (REPORT_URL +:+ Demo.tcs_2023)
              "reports/2023-2024" Demo.fresh ValueError)
    as (w' & Hrun & Hfiles & _).
  - discriminate.
  - right. eexists. by repeat split.
  - exists w'. split; [exact Hrun|exact Hfiles].
Defined.

